(** * XGBSurrogate: a shallow embedding of [tabular_sampling/surrogate/xgb.py]

    The module wraps scikit-learn, pandas and XGBoost.  What those libraries
    compute is taken as a parameter (record [SkLearn]); what the module itself
    does (validation, branching, which local variables are bound at the
    [return], which attributes of the instance are written and when, which
    files are written and read) is modelled statement by statement. *)

From Stdlib Require Import Floats.
From stdpp Require Import gmap strings pretty list fin_maps.


(** ** Python values used by the module *)

(** Exceptions, by class.  [ValueError] carries the message so that the
    module's own validation error can be told from a library's. *)
Inductive exn : Type :=
| ValueError (msg : string)
| UnboundLocalError (name : string)
| NameError (name : string)
| KeyError
| IndexError
| TypeError
| AttributeError
| OverflowError
| ZeroDivisionError
| StopIteration
| FileNotFoundError
| UnpicklingError.

Inductive result (A : Type) : Type :=
| Ok (a : A)
| Raise (e : exn).
Arguments Ok {A} a.
Arguments Raise {A} e.

Global Instance result_ret : MRet result := λ A a, Ok a.
Global Instance result_bind : MBind result := λ A B f r,
  match r with
  | Ok a => f a
  | Raise e => Raise e
  end.

Definition from_opt {A} (e : exn) (o : option A) : result A :=
  match o with
  | Some a => Ok a
  | None => Raise e
  end.

(** A column label: a string, or the integer position pandas assigns when no
    labels are given. *)
Inductive label : Type :=
| LStr (s : string)
| LInt (i : Z).

Global Instance label_eq_dec : EqDecision label.
Proof. solve_decision. Defined.

(** A cell of a feature or label table. *)
Inductive cell : Type :=
| CInt (z : Z)
| CFloat (f : float)
| CStr (s : string).

(** [pd.DataFrame]: column labels and the rows in order.  [A] is the cell
    type: [cell] for features and labels, [Z] for the numeric group ids. *)
Record DataFrame (A : Type) : Type := mkDataFrame {
  columns : list label;
  rows : list (list A)
}.
Arguments mkDataFrame {A} columns rows.
Arguments columns {A} d.
Arguments rows {A} d.

(** [np.ndarray] of predictions: its second dimension and its rows. *)
Record ndarray : Type := mkArray {
  width : nat;
  cells : list (list cell)
}.

(** ** Floats

    [test_size] is a Python float: binary64 with IEEE comparisons. *)

(** [int(x)] on a float: truncation toward zero; NaN and the infinities
    raise. *)
Definition py_int (x : float) : result Z :=
  match Prim2SF x with
  | S754_zero _ => Ok 0%Z
  | S754_infinity _ => Raise OverflowError
  | S754_nan => Raise (ValueError "cannot convert float NaN to integer")
  | S754_finite s m e =>
      let a := Z.shiftl (Z.pos m) e in Ok (if s then (- a)%Z else a)
  end.

(** [x / y] on floats: Python raises on a zero divisor. *)
Definition py_truediv (x y : float) : result float :=
  if (y =? 0)%float then Raise ZeroDivisionError else Ok (x / y)%float.

(** ** pandas indexing *)

(** Positions of the columns labelled [l], in order (pandas returns every
    match when labels repeat). *)
Fixpoint positions_from (i : nat) (l : label) (cs : list label) : list nat :=
  match cs with
  | [] => []
  | c :: cs' =>
      if decide (c = l) then i :: positions_from (S i) l cs'
      else positions_from (S i) l cs'
  end.

Definition positions (l : label) (cs : list label) : list nat :=
  positions_from 0 l cs.

(** Positions selected by [df.loc[:, headers]]; a label that is not a column
    raises [KeyError]. *)
Fixpoint loc_positions (cs : list label) (headers : list label)
  : result (list nat) :=
  match headers with
  | [] => Ok []
  | h :: hs =>
      match positions h cs with
      | [] => Raise KeyError
      | ps => rest ← loc_positions cs hs; Ok (ps ++ rest)
      end
  end.

Definition take_positions {A} (ps : list nat) (r : list A) : option (list A) :=
  mapM (λ p, r !! p) ps.

(** [df.loc[:, headers]] *)
Definition loc_cols {A} (df : DataFrame A) (headers : list label)
  : result (DataFrame A) :=
  ps ← loc_positions (columns df) headers;
  rs ← from_opt IndexError (mapM (take_positions ps) (rows df));
  Ok (mkDataFrame (ps ≫= λ p, option_list (columns df !! p)) rs).

(** [df.loc[:, name]]: the column as a series. *)
Definition loc_col {A} (df : DataFrame A) (name : label) : result (list A) :=
  match positions name (columns df) with
  | [] => Raise KeyError
  | p :: _ => from_opt IndexError (mapM (λ r : list A, r !! p) (rows df))
  end.

(** [df.iloc[idx]]: the rows at the given positions, in the order given. *)
Definition iloc {A} (df : DataFrame A) (idx : list nat)
  : result (DataFrame A) :=
  rs ← from_opt IndexError (mapM (λ i, rows df !! i) idx);
  Ok (mkDataFrame (columns df) rs).

(** [pd.DataFrame(arr, columns=cols)] *)
Definition pd_DataFrame (arr : ndarray) (cols : option (list label))
  : result (DataFrame cell) :=
  match cols with
  | None => Ok (mkDataFrame (LInt ∘ Z.of_nat <$> seq 0 (width arr)) (cells arr))
  | Some cs =>
      if decide (length cs = width arr) then Ok (mkDataFrame cs (cells arr))
      else Raise (ValueError "Shape of passed values")
  end.

(** ** scikit-learn, as the module uses it *)

(** [random_state]: a seed, or [None]. *)
Definition RandomState : Type := option Z.

(** The cross-validators the module constructs, with the arguments it
    passes; an argument it leaves out keeps scikit-learn's default. *)
Inductive splitter : Type :=
| KFold (n_splits : Z) (shuffle : bool)
| GroupKFold (n_splits : Z)
| ShuffleSplit (n_splits : Z) (test_size : float) (random_state : RandomState)
| StratifiedShuffleSplit (n_splits : Z) (test_size : float)
    (random_state : RandomState)
| GroupShuffleSplit (n_splits : Z) (random_state : RandomState)
| StratifiedGroupKFold (n_splits : Z) (shuffle : bool)
    (random_state : RandomState).

(** The cross-validators that keep the rows of a group together. *)
Definition group_aware (s : splitter) : bool :=
  match s with
  | GroupKFold _ | GroupShuffleSplit _ _ | StratifiedGroupKFold _ _ _ => true
  | KFold _ _ | ShuffleSplit _ _ _ | StratifiedShuffleSplit _ _ _ => false
  end.

(** The constructor of the K-fold cross-validators ([_BaseKFold.__init__]):
    fewer than two folds are refused when the object is built, before any
    split is asked of it. *)
Definition n_splits_message (n_splits : Z) : string :=
  "k-fold cross-validation requires at least one train/test split by setting n_splits=2 or more, got n_splits="
  +:+ pretty n_splits +:+ ".".

Definition check_n_splits (n_splits : Z) : result () :=
  if (n_splits <=? 1)%Z then Raise (ValueError (n_splits_message n_splits))
  else Ok ().

(** [KFold(n_splits=n, shuffle=b)] and [GroupKFold(n_splits=n)] *)
Definition new_KFold (n_splits : Z) (shuffle : bool) : result splitter :=
  _ ← check_n_splits n_splits; Ok (KFold n_splits shuffle).

Definition new_GroupKFold (n_splits : Z) : result splitter :=
  _ ← check_n_splits n_splits; Ok (GroupKFold n_splits).

(** An hyperparameter value, and the dict of hyperparameters. *)
Inductive hvalue : Type :=
| HStr (s : string)
| HInt (z : Z)
| HFloat (f : float).

Abbreviation hdict := (gmap string hvalue).

(** What a key of a search space is sampled from: a list of choices or a
    frozen [scipy.stats] distribution. *)
Inductive distribution : Type :=
| Choices (values : list hvalue)
| Uniform (loc scale : float)
| LogUniform (a b : float).

(** [next(it)] on the values a generator yields. *)
Definition py_next {A} (yields : list A) : result A :=
  match yields with
  | [] => Raise StopIteration
  | x :: _ => Ok x
  end.

Section Surrogate.

(** [ConfigSpace.ConfigurationSpace] and the fitted estimator are opaque to
    the module. *)
Context {ConfigSpace Model : Type}.

(** The unfitted [sklearn.pipeline.Pipeline] of [_get_simple_pipeline]: what
    it is built from. *)
Record Pipeline : Type := mkPipeline {
  pl_config_space : ConfigSpace;
  pl_n_estimators : Z;
  pl_tree_method : string;
  pl_n_jobs : Z;
  pl_hyperparams : hdict;
  pl_multiout : bool
}.

(** What the libraries compute.  [sk_split s X y groups] is the list of
    [(train, test)] index arrays that [s.split(X, y, groups=groups)] yields,
    or the exception the constructor or the call raises: the module builds
    its test splitter and asks it for a split in two consecutive
    statements.  The K-fold for the validation splits is built and handed
    back without being used; its constructor is [new_KFold] or
    [new_GroupKFold]. *)
Record SkLearn : Type := mkSkLearn {
  sk_split : splitter → DataFrame cell → list cell → option (DataFrame Z)
             → result (list (list nat * list nat));
  sk_pipeline_fit : Pipeline → DataFrame cell → DataFrame cell → result Model;
  sk_search_fit : Pipeline → list (string * distribution) → Z → splitter
                  → RandomState → DataFrame cell → DataFrame cell
                  → option (DataFrame Z) → result Model;
  sk_predict : Model → DataFrame cell → result ndarray;
  sk_r2_score : DataFrame cell → DataFrame cell → result float;
  sk_mean_squared_error : DataFrame cell → DataFrame cell → result float
}.

(** What scikit-learn documents of its cross-validators: the index arrays
    of a split are the row positions, each once (with [train_size] left
    out the training side is the complement of the test side), and a
    group-aware cross-validator puts no group on both sides. *)
Record sk_contract (sk : SkLearn) : Prop := {
  split_partition : ∀ s X y g folds tr te,
    sk_split sk s X y g = Ok folds → (tr, te) ∈ folds →
    tr ++ te ≡ₚ seq 0 (length (rows X));
  split_groups : ∀ s X y g folds tr te,
    group_aware s = true →
    sk_split sk s X y (Some g) = Ok folds → (tr, te) ∈ folds →
    ∀ i j gi gj, i ∈ tr → j ∈ te →
      rows g !! i = Some gi → rows g !! j = Some gj → gi ≠ gj
}.

Variable sk : SkLearn.

(** ** [prepare_dataset_for_training] *)

(** The [strata] argument: [None], a column name, or a series. *)
Inductive strata_arg : Type :=
| StrataNone
| StrataColumn (name : string)
| StrataSeries (s : list cell).

(** The local variables the [return] statement reads; [None] is a name that
    no statement on the path taken has bound. *)
Record locals : Type := mkLocals {
  l_xtrain : option (DataFrame cell);
  l_xtest : option (option (DataFrame cell));
  l_ytrain : option (DataFrame cell);
  l_ytest : option (option (DataFrame cell));
  l_groups_train : option (DataFrame Z);
  l_cv : option splitter
}.

Definition local {A} (name : string) (v : option A) : result A :=
  from_opt (UnboundLocalError name) v.

Definition test_size_message : string :=
  "The test set fraction size 'test_size' must be in the range [0, 1)".

(** The guard of the first [if]: [test_size > 1. or test_size < 0.] *)
Definition test_size_rejected (test_size : float) : bool :=
  (1 <? test_size)%float || (test_size <? 0)%float.

(** Line 251: the strata the split is stratified by. *)
Definition resolve_strata (labels : DataFrame cell) (strata : strata_arg)
  : result (list cell) :=
  match strata with
  | StrataNone =>
      c ← from_opt IndexError (columns labels !! 0%nat); loc_col labels c
  | StrataColumn name => loc_col labels (LStr name)
  | StrataSeries s => Ok s
  end.

Definition prepare_ret : Type :=
  DataFrame cell * option (DataFrame cell) *
  DataFrame cell * option (DataFrame cell) * DataFrame Z * splitter.

(** The body up to the [return]: the locals each path binds. *)
Definition prepare_locals
    (features labels : DataFrame cell) (groups : option (DataFrame Z))
    (test_size : float) (random_state : RandomState) (num_cv_splits : Z)
    (stratify : bool) (strata : strata_arg) : result locals :=
  if test_size_rejected test_size then
    Raise (ValueError test_size_message)
  else if (test_size =? 0)%float then
    cv ← match groups with
         | None => new_KFold num_cv_splits false
         | Some _ => new_GroupKFold num_cv_splits
         end;
    Ok {| l_xtrain := Some features; l_ytrain := Some labels;
          l_xtest := Some None; l_ytest := Some None;
          l_groups_train := None;
          l_cv := Some cv |}
  else
    strata ← resolve_strata labels strata;
    match groups with
    | None =>
        let test_splitter :=
          if stratify then StratifiedShuffleSplit 1 test_size random_state
          else ShuffleSplit 1 test_size random_state in
        '(idx_train, idx_test) ←
          sk_split sk test_splitter features strata None ≫= py_next;
        xtrain ← iloc features idx_train;
        xtest ← iloc features idx_test;
        ytrain ← iloc labels idx_train;
        ytest ← iloc labels idx_test;
        cv ← new_KFold num_cv_splits false;
        Ok {| l_xtrain := Some xtrain; l_ytrain := Some ytrain;
              l_xtest := Some (Some xtest); l_ytest := Some (Some ytest);
              l_groups_train := None;
              l_cv := Some cv |}
    | Some groups =>
        n_splits ← py_truediv 1 test_size ≫= py_int;
        let test_splitter :=
          if stratify then StratifiedGroupKFold n_splits true random_state
          else GroupShuffleSplit n_splits random_state in
        '(idx_train, idx_test) ←
          sk_split sk test_splitter features strata (Some groups) ≫= py_next;
        xtrain ← iloc features idx_train;
        xtest ← iloc features idx_test;
        ytrain ← iloc labels idx_train;
        ytest ← iloc labels idx_test;
        groups_train ← iloc groups idx_train;
        cv ← new_GroupKFold num_cv_splits;
        Ok {| l_xtrain := Some xtrain; l_ytrain := Some ytrain;
              l_xtest := Some (Some xtest); l_ytest := Some (Some ytest);
              l_groups_train := Some groups_train;
              l_cv := Some cv |}
    end.

(** Line 284: [return xtrain, xtest, ytrain, ytest, groups_train, cv], the
    names read from left to right. *)
Definition prepare_return (l : locals) : result prepare_ret :=
  xtrain ← local "xtrain" (l_xtrain l);
  xtest ← local "xtest" (l_xtest l);
  ytrain ← local "ytrain" (l_ytrain l);
  ytest ← local "ytest" (l_ytest l);
  groups_train ← local "groups_train" (l_groups_train l);
  cv ← local "cv" (l_cv l);
  Ok (xtrain, xtest, ytrain, ytest, groups_train, cv).

Definition prepare_dataset_for_training
    (features labels : DataFrame cell) (groups : option (DataFrame Z))
    (test_size : float) (random_state : RandomState) (num_cv_splits : Z)
    (stratify : bool) (strata : strata_arg) : result prepare_ret :=
  prepare_locals features labels groups test_size random_state num_cv_splits
    stratify strata ≫= prepare_return.


(** ** The surrogate instance *)

Record XGBSurrogate : Type := mkSurrogate {
  config_space : ConfigSpace;
  estimators_per_output : Z;
  hyperparams : option hdict;
  use_gpu : option bool;
  model : option Model;
  feature_headers : option (list label);
  label_headers : option (list label);
  trained_ : bool
}.

Definition set_hyperparams (v : option hdict) (s : XGBSurrogate) :=
  mkSurrogate (config_space s) (estimators_per_output s) v (use_gpu s)
    (model s) (feature_headers s) (label_headers s) (trained_ s).
Definition set_model (v : option Model) (s : XGBSurrogate) :=
  mkSurrogate (config_space s) (estimators_per_output s) (hyperparams s)
    (use_gpu s) v (feature_headers s) (label_headers s) (trained_ s).
Definition set_feature_headers (v : option (list label)) (s : XGBSurrogate) :=
  mkSurrogate (config_space s) (estimators_per_output s) (hyperparams s)
    (use_gpu s) (model s) v (label_headers s) (trained_ s).
Definition set_label_headers (v : option (list label)) (s : XGBSurrogate) :=
  mkSurrogate (config_space s) (estimators_per_output s) (hyperparams s)
    (use_gpu s) (model s) (feature_headers s) v (trained_ s).
Definition set_trained_ (v : bool) (s : XGBSurrogate) :=
  mkSurrogate (config_space s) (estimators_per_output s) (hyperparams s)
    (use_gpu s) (model s) (feature_headers s) (label_headers s) v.
Definition set_config_space (v : ConfigSpace) (s : XGBSurrogate) :=
  mkSurrogate v (estimators_per_output s) (hyperparams s)
    (use_gpu s) (model s) (feature_headers s) (label_headers s) (trained_ s).
Definition set_estimators_per_output (v : Z) (s : XGBSurrogate) :=
  mkSurrogate (config_space s) v (hyperparams s)
    (use_gpu s) (model s) (feature_headers s) (label_headers s) (trained_ s).

(** A method: it may assign attributes of [self] and may raise; what it
    assigned before raising stays assigned. *)
Definition M (A : Type) : Type := XGBSurrogate → XGBSurrogate * result A.

Definition ret {A} (a : A) : M A := λ s, (s, Ok a).
Definition bind {A B} (m : M A) (k : A → M B) : M B := λ s,
  match m s with
  | (s', Ok a) => k a s'
  | (s', Raise e) => (s', Raise e)
  end.
Definition lift {A} (r : result A) : M A := λ s, (s, r).
Definition self : M XGBSurrogate := λ s, (s, Ok s).
Definition assign (f : XGBSurrogate → XGBSurrogate) : M unit :=
  λ s, (f s, Ok ()).

Notation "'let*' x := m 'in' k" := (bind m (λ x, k))
  (at level 10, x pattern, m at level 100, k at level 200).

(** A method that assigns neither [feature_headers] nor [label_headers]. *)
Definition keeps_headers {A} (m : M A) : Prop :=
  ∀ s, feature_headers (m s).1 = feature_headers s ∧
       label_headers (m s).1 = label_headers s.

(** What every instance built by the class's own methods satisfies:
    [trained_] is set only after the label order has been recorded. *)
Definition well_formed (s : XGBSurrogate) : Prop :=
  trained_ s = true → is_Some (label_headers s).

(** ** Hyperparameters *)

(** The names bound at module level: the imports, [_log], [ConfigType] and
    the class.  A bare name in a method body that is neither a local nor one
    of these (nor a builtin; [loguniform] is not) raises [NameError]. *)
Definition module_globals : list string :=
  ["annotations"; "copy"; "logging"; "partial"; "Path"; "Union"; "Optional";
   "Sequence"; "Tuple"; "ConfigSpace"; "joblib"; "np"; "pd"; "scipy";
   "sklearn"; "xgb"; "joint_config_space"; "_log"; "ConfigType";
   "XGBSurrogate"].

Definition resolve_global (name : string) : result unit :=
  if decide (name ∈ module_globals) then Ok () else Raise (NameError name).

(** What numpy's global generator hands out during one call: the position
    [np.random.choice] picks, and the floats the other draws return. *)
Record NumpyDraws : Type := mkDraws {
  pick_max_depth : nat;
  pick_min_child_weight : nat;
  draw_colsample_bytree : float;
  draw_learning_rate : float;
  draw_colsample_bylevel : float
}.

(** [range(lo, hi)] *)
Definition py_range (lo hi : Z) : list Z := seqZ lo (hi - lo).

(** The class attribute [_hpo_search_space]. *)
Definition _hpo_search_space : list (string * distribution) :=
  [("objective", Choices [HStr "reg:squarederror"]);
   ("booster", Choices [HStr "gbtree"]);
   ("max_depth", Choices (HInt <$> py_range 1 15));
   ("min_child_weight", Choices (HInt <$> py_range 1 10));
   ("colsample_bytree", Uniform 0 1);
   ("learning_rate", LogUniform 0x1.0624dd2f1a9fcp-10 0.5);  (* 0.001, 0.5 *)
   ("colsample_bylevel", Uniform 0 1)].

(** [np.random.choice(a)]: one of the elements of [a]. *)
Definition np_random_choice (a : list Z) (pick : nat) : result Z :=
  from_opt (ValueError "a must be non-empty") (a !! (pick `mod` length a)%nat).

Definition default_hyperparams : hdict :=
  <["objective" := HStr "reg:squarederror"]>
  (<["booster" := HStr "gbtree"]>
  (<["max_depth" := HInt 6]>
  (<["min_child_weight" := HInt 1]>
  (<["colsample_bytree" := HInt 1]>
  (<["learning_rate" := HFloat 0x1.3333333333333p-2]>  (* 0.3 *)
  (<["colsample_bylevel" := HInt 1]> ∅)))))).

(** The dict display of lines 78-90; its values are evaluated in source
    order. *)
Definition random_hyperparams (rng : NumpyDraws) : result hdict :=
  max_depth ← np_random_choice (py_range 1 15) (pick_max_depth rng);
  min_child_weight ← np_random_choice (py_range 1 10) (pick_min_child_weight rng);
  let colsample_bytree := draw_colsample_bytree rng in
  _ ← resolve_global "loguniform";
  let learning_rate := draw_learning_rate rng in
  let colsample_bylevel := draw_colsample_bylevel rng in
  Ok (<["objective" := HStr "reg:squarederror"]>
     (<["booster" := HStr "gbtree"]>
     (<["max_depth" := HInt max_depth]>
     (<["min_child_weight" := HInt min_child_weight]>
     (<["colsample_bytree" := HFloat colsample_bytree]>
     (<["learning_rate" := HFloat learning_rate]>
     (<["colsample_bylevel" := HFloat colsample_bylevel]> ∅))))))).

Definition set_random_hyperparams (rng : NumpyDraws) : M hdict :=
  let* s := self in
  let* params :=
    match hyperparams s with
    | None => ret default_hyperparams
    | Some _ => lift (random_hyperparams rng)
    end in
  let* _ := assign (set_hyperparams (Some params)) in
  ret params.

(** [joint_config_space] is imported from
    [tabular_sampling.search_space.configspace]. *)
Variable joint_config_space : ConfigSpace.

(** [__init__]: the attributes in the order they are assigned, then the call
    that sets the default hyperparameters. *)
Definition init (config_space : ConfigSpace) (estimators_per_output : Z)
    (use_gpu : option bool) (rng : NumpyDraws) : XGBSurrogate * result unit :=
  (let* _ := set_random_hyperparams rng in ret ())
    {| config_space := config_space;
       estimators_per_output := estimators_per_output;
       hyperparams := None;
       use_gpu := use_gpu;
       model := None;
       feature_headers := None;
       label_headers := None;
       trained_ := false |}.

(** [cls()]: every argument at its default. *)
Definition init_default (rng : NumpyDraws) : XGBSurrogate * result unit :=
  init joint_config_space 500 None rng.


(** ** Pipeline, [predict] and [fit] *)

(** [_get_simple_pipeline]: [**self.hyperparams] needs a mapping. *)
Definition _get_simple_pipeline (multiout : bool) : M Pipeline :=
  let* s := self in
  let* hp := lift (from_opt TypeError (hyperparams s)) in
  ret {| pl_config_space := config_space s;
         pl_n_estimators := 500;
         pl_tree_method :=
           match use_gpu s with Some true => "gpu_hist" | _ => "auto" end;
         pl_n_jobs := 1;
         pl_hyperparams := hp;
         pl_multiout := multiout |}.

(** [predict]: reads the instance, assigns nothing.  No column is labelled
    [None], and [None] has no [predict]. *)
Definition predict_of (s : XGBSurrogate) (features : DataFrame cell)
  : result (DataFrame cell) :=
  fh ← from_opt KeyError (feature_headers s);
  features ← loc_cols features fh;
  m ← from_opt AttributeError (model s);
  ypredict ← sk_predict sk m features;
  pd_DataFrame ypredict (label_headers s).

Definition predict (features : DataFrame cell) : M (DataFrame cell) :=
  let* s := self in lift (predict_of s features).

(** Lines 295-304: the first call records the column order, a later call
    re-indexes its input by the recorded order. *)
Definition fix_feature_headers (features : DataFrame cell)
  : M (DataFrame cell) :=
  let* s := self in
  match feature_headers s with
  | None =>
      let* _ := assign (set_feature_headers (Some (columns features))) in
      ret features
  | Some fh => lift (loc_cols features fh)
  end.

Definition fix_label_headers (labels : DataFrame cell)
  : M (DataFrame cell) :=
  let* s := self in
  match label_headers s with
  | None =>
      let* _ := assign (set_label_headers (Some (columns labels))) in
      ret labels
  | Some lh => lift (loc_cols labels lh)
  end.

(** Lines 312-360: what [fit] does with the tables once their columns are
    settled. *)
Definition fit_body (features labels : DataFrame cell)
    (groups : option (DataFrame Z)) (perform_hpo : bool) (test_size : float)
    (random_state : RandomState) (hpo_iters num_cv_splits : Z)
    (stratify : bool) (strata : strata_arg) : M (gmap string float) :=
  let* (xtrain, xtest, ytrain, ytest, groups, cv) :=
    lift (prepare_dataset_for_training features labels groups test_size
            random_state num_cv_splits stratify strata) in
  let num_regressands := length (columns labels) in
  let multiout := bool_decide (1 < num_regressands)%nat in
  let* pipeline := _get_simple_pipeline multiout in
  let* fitted :=
    if perform_hpo then
      let estimator_prefix :=
        (if multiout then "multiout__" else "") +:+ "estimator" in
      let hpo_search_space :=
        (λ '(k, v), (estimator_prefix +:+ "__" +:+ k, v))
          <$> _hpo_search_space in
      lift (sk_search_fit sk pipeline hpo_search_space hpo_iters cv
              random_state xtrain ytrain (Some groups))
    else lift (sk_pipeline_fit sk pipeline xtrain ytrain) in
  let* _ := assign (set_model (Some fitted)) in
  let* _ := assign (set_trained_ true) in
  let* ypred_train := predict xtrain in
  let* train_r2 := lift (sk_r2_score sk ytrain ypred_train) in
  let* train_mse := lift (sk_mean_squared_error sk ytrain ypred_train) in
  let scores : gmap string float :=
    <["train_r2" := train_r2]> (<["train_mse" := train_mse]> ∅) in
  if (0 <? test_size)%float then
    let* xtest := lift (from_opt AttributeError xtest) in
    let* ypred_test := predict xtest in
    let* ytest := lift (from_opt TypeError ytest) in
    let* test_r2 := lift (sk_r2_score sk ytest ypred_test) in
    let* test_mse := lift (sk_mean_squared_error sk ytest ypred_test) in
    ret (<["test_mse" := test_mse]> (<["test_r2" := test_r2]> scores))
  else ret scores.

Definition fit (features labels : DataFrame cell)
    (groups : option (DataFrame Z)) (perform_hpo : bool) (test_size : float)
    (random_state : RandomState) (hpo_iters num_cv_splits : Z)
    (stratify : bool) (strata : strata_arg) : M (gmap string float) :=
  let* features := fix_feature_headers features in
  let* labels := fix_label_headers labels in
  fit_body features labels groups perform_hpo test_size random_state
    hpo_iters num_cv_splits stratify strata.

(** ** [dump] and [load] *)

(** The dict [dump] builds from [__param_keys]. *)
Record params : Type := mkParams {
  p_estimators_per_output : Z;
  p_hyperparams : option hdict;
  p_config_space : ConfigSpace;
  p_label_headers : option (list label);
  p_feature_headers : option (list label);
  p_trained_ : bool
}.

(** What a file holds.  Serialization is taken to be faithful: a file holds
    the object that was written to it. *)
Inductive payload : Type :=
| PParams (p : params)
| PSeries (index values : list label)
| PModel (m : option Model).

(** [outdir / name] *)
Abbreviation path := (string * string)%type.

Inductive io_event : Type :=
| Wrote (f : path)
| Read (f : path).

(** The directory tree, and the file operations performed so far, the
    latest first. *)
Record FS : Type := mkFS {
  files : gmap path payload;
  trace : list io_event
}.

Definition IO (A : Type) : Type := FS → FS * result A.

Definition write_file (f : path) (v : payload) : IO unit := λ fs,
  (mkFS (<[f := v]> (files fs)) (Wrote f :: trace fs), Ok ()).

Definition read_file (f : path) : IO payload := λ fs,
  match files fs !! f with
  | Some v => (mkFS (files fs) (Read f :: trace fs), Ok v)
  | None => (fs, Raise FileNotFoundError)
  end.

Definition io_bind {A B} (m : IO A) (k : A → IO B) : IO B := λ fs,
  match m fs with
  | (fs', Ok a) => k a fs'
  | (fs', Raise e) => (fs', Raise e)
  end.

Definition io_ret {A} (a : A) : IO A := λ fs, (fs, Ok a).
Definition io_lift {A} (r : result A) : IO A := λ fs, (fs, r).

Notation "'io*' x := m 'in' k" := (io_bind m (λ x, k))
  (at level 10, x pattern, m at level 100, k at level 200).

Definition params_filename : string := "params.pkl.gz".
Definition headers_filename : string := "label_headers.pkl.gz".
Definition model_filename : string := "model.pkl.gz".

(** Line 374: the attributes named by [__param_keys]. *)
Definition params_of (s : XGBSurrogate) : params :=
  {| p_estimators_per_output := estimators_per_output s;
     p_hyperparams := hyperparams s;
     p_config_space := config_space s;
     p_label_headers := label_headers s;
     p_feature_headers := feature_headers s;
     p_trained_ := trained_ s |}.

Definition dump (s : XGBSurrogate) (outdir : string) (protocol : Z)
  : IO unit :=
  let params := params_of s in
  io* _ := write_file (outdir, params_filename) (PParams params) in
  if trained_ s then
    io* lh := io_lift (from_opt AttributeError (label_headers s)) in
    io* _ := write_file (outdir, headers_filename) (PSeries lh lh) in
    write_file (outdir, model_filename) (PModel (model s))
  else io_ret ().

(** The [for] loop of [load]: one assignment per key of the dict. *)
Definition restore_params (p : params) (s : XGBSurrogate) : XGBSurrogate :=
  set_trained_ (p_trained_ p)
    (set_feature_headers (p_feature_headers p)
      (set_label_headers (p_label_headers p)
        (set_config_space (p_config_space p)
          (set_hyperparams (p_hyperparams p)
            (set_estimators_per_output (p_estimators_per_output p) s))))).

Definition load (outdir : string) (rng : NumpyDraws) : IO XGBSurrogate :=
  io* v := read_file (outdir, params_filename) in
  io* params :=
    io_lift (match v with PParams p => Ok p | _ => Raise UnpicklingError end) in
  io* surrogate :=
    io_lift (let '(s, r) := init_default rng in _ ← r; Ok s) in
  let surrogate := restore_params params surrogate in
  if trained_ surrogate then
    io* v := read_file (outdir, headers_filename) in
    io* label_headers :=
      io_lift (match v with
               | PSeries _ values => Ok values
               | _ => Raise UnpicklingError
               end) in
    io* v := read_file (outdir, model_filename) in
    io* model :=
      io_lift (match v with PModel m => Ok m | _ => Raise UnpicklingError end) in
    io_ret (set_model model (set_label_headers (Some label_headers) surrogate))
  else io_ret surrogate.

End Surrogate.

Arguments SkLearn : clear implicits.
Arguments XGBSurrogate : clear implicits.
Arguments Pipeline : clear implicits.
Arguments params : clear implicits.
Arguments payload : clear implicits.
Arguments FS : clear implicits.

(** * [_random_data] *)

(** [np.repeat(a, k, axis=0)]: every row [k] times in a row. *)
Definition np_repeat {A} (a : list A) (k : nat) : list A :=
  a ≫= replicate k.

(** [np.tile(a, n)]: the whole array [n] times over. *)
Definition np_tile {A} (a : list A) (n : nat) : list A :=
  mjoin (replicate n a).

(** [np.arange(1, n + 1)] *)
Definition np_arange_from_1 (n : nat) : list Z := Z.of_nat <$> seq 1 n.

(** [df.loc[:, name] = series] on default row labels: the values are
    aligned by position (a row the series has no value for gets NaN); an
    existing column of that name is overwritten, otherwise the column is
    appended. *)
Definition set_column (df : DataFrame cell) (name : label)
    (series : list cell) : DataFrame cell :=
  let aligned :=
    (λ i, default (CFloat nan) (series !! i)) <$> seq 0 (length (rows df)) in
  match positions name (columns df) with
  | [] =>
      mkDataFrame (columns df ++ [name])
        (zip_with (λ r v, r ++ [v]) (rows df) aligned)
  | ps =>
      mkDataFrame (columns df)
        (zip_with (λ r v, foldr (λ p r', <[p := v]> r') r ps) (rows df)
           aligned)
  end.

Section RandomData.

Context {ConfigSpace Model : Type}.

(** What ConfigSpace and the random state hand out: the array
    [np.array([list(c.get_dictionary().values()) for c in
    cs.sample_configuration(n)])], the hyperparameter names, and the stream
    of floats [random_state.random] fills its array from, row by row. *)
Record ConfigSpaceLib : Type := mkConfigSpaceLib {
  cs_sample_values : ConfigSpace → RandomState → nat → result ndarray;
  cs_hyperparameter_names : ConfigSpace → list string;
  rs_random : RandomState → nat → float
}.

Variable lib : ConfigSpaceLib.

(** [random_state.random((n, d))] *)
Definition random_array (rs : RandomState) (n d : nat) : ndarray :=
  mkArray d
    ((λ i, (λ j, CFloat (rs_random lib rs (i * d + j))) <$> seq 0 d)
       <$> seq 0 n).

(** Lines 134-164.  The three sizes are counts; the sampled configurations
    and the random labels are what [lib] hands out. *)
Definition _random_data (s : XGBSurrogate ConfigSpace Model)
    (nconfigs samples_per_config nlabel_dims : nat)
    (label_names : option (list label)) (random_state : RandomState)
  : result (DataFrame cell * DataFrame cell * DataFrame Z) :=
  let cs := config_space s in
  features ← cs_sample_values lib cs random_state nconfigs;
  let features :=
    mkArray (width features) (np_repeat (cells features) samples_per_config) in
  features ←
    pd_DataFrame features (Some (LStr <$> cs_hyperparameter_names lib cs));
  let epochs := np_tile (np_arange_from_1 samples_per_config) nconfigs in
  let features := set_column features (LStr "epoch") (CInt <$> epochs) in
  let labels :=
    random_array random_state (nconfigs * samples_per_config) nlabel_dims in
  let label_names :=
    match label_names with
    | None => (λ i, LStr ("Label_" +:+ pretty i)) <$> seq 0 nlabel_dims
    | Some names => names
    end in
  labels ← pd_DataFrame labels (Some label_names);
  let groups := np_repeat (np_arange_from_1 nconfigs) samples_per_config in
  let groups := mkDataFrame [LStr "ModelIndex"] ((λ g, [g]) <$> groups) in
  Ok (features, labels, groups).

End RandomData.

Arguments ConfigSpaceLib : clear implicits.

(** * The instances the class's methods produce *)

Section Reachable.

Context {ConfigSpace Model : Type}.
Variable sk : SkLearn ConfigSpace Model.
Variable joint_config_space : ConfigSpace.

(** An instance built by the constructor and then changed only by calls of
    [set_random_hyperparams] and [fit] (returning or not), or loaded from
    what [dump] wrote for such an instance. *)
Inductive reachable : XGBSurrogate ConfigSpace Model → Prop :=
| reach_init cs n gpu rng :
    reachable (init cs n gpu rng).1
| reach_set_random_hyperparams rng s :
    reachable s → reachable (set_random_hyperparams rng s).1
| reach_fit X Y g hpo t rs iters k st strata s :
    reachable s → reachable (fit sk X Y g hpo t rs iters k st strata s).1
| reach_load outdir protocol rng fs s s' :
    reachable s →
    (load joint_config_space outdir rng (dump s outdir protocol fs).1).2
    = Ok s' →
    reachable s'.

(** What holds of every such instance: the hyperparameters are the
    defaults, the two column orders are set together, and the instance is
    marked trained exactly when it holds a model, in which case the orders
    are set. *)
Definition sound (s : XGBSurrogate ConfigSpace Model) : Prop :=
  hyperparams s = Some default_hyperparams ∧
  (is_Some (feature_headers s) ↔ is_Some (label_headers s)) ∧
  (trained_ s = true ↔ is_Some (model s)) ∧
  (trained_ s = true → is_Some (feature_headers s)).

(** The instance after the first two statements of [fit]: an order that was
    not set is the given table's. *)
Definition record_headers (X Y : DataFrame cell)
    (s : XGBSurrogate ConfigSpace Model) : XGBSurrogate ConfigSpace Model :=
  set_label_headers (Some (default (columns Y) (label_headers s)))
    (set_feature_headers (Some (default (columns X) (feature_headers s))) s).

End Reachable.

(** * A small environment to run the model on

    A deterministic stand-in for the libraries: the test side of a split is
    the group of the first row (the first row alone when the cross-validator
    ignores groups), a k-fold cross-validator wants at least two folds and a
    group-aware one wants groups, and a fitted model predicts a constant. *)
Module Ref.

Definition n_folds (s : splitter) : option Z :=
  match s with
  | KFold n _ | GroupKFold n | StratifiedGroupKFold n _ _ => Some n
  | ShuffleSplit _ _ _ | StratifiedShuffleSplit _ _ _
  | GroupShuffleSplit _ _ => None
  end.

Definition in_test (s : splitter) (g : option (DataFrame Z)) (i : nat) : Prop :=
  match g with
  | Some g => if group_aware s then rows g !! i = rows g !! 0%nat else i = 0%nat
  | None => i = 0%nat
  end.

Global Instance in_test_dec s g i : Decision (in_test s g i).
Proof. unfold in_test. destruct g; [destruct (group_aware s)|]; apply _. Defined.

Definition split (s : splitter) (X : DataFrame cell) (y : list cell)
    (g : option (DataFrame Z)) : result (list (list nat * list nat)) :=
  let every := seq 0 (length (rows X)) in
  if from_option (λ n, n <? 2)%Z false (n_folds s) then
    Raise (ValueError "k-fold cross-validation requires n_splits=2 or more")
  else if group_aware s && match g with None => true | Some _ => false end then
    Raise (ValueError "The 'groups' parameter should not be None.")
  else
    Ok [(filter (λ i, ¬ in_test s g i) every, filter (in_test s g) every)].

Definition predict_constant (m : nat) (X : DataFrame cell) : result ndarray :=
  Ok (mkArray m ((λ _, replicate m (CInt 0)) <$> rows X)).

Definition sklearn : SkLearn unit nat :=
  {| sk_split := split;
     sk_pipeline_fit := λ _ _ Y, Ok (length (columns Y));
     sk_search_fit := λ _ _ _ _ _ _ Y _, Ok (length (columns Y));
     sk_predict := predict_constant;
     sk_r2_score := λ _ _, Ok 1%float;
     sk_mean_squared_error := λ _ _, Ok 0%float |}.

(** Two configurations, two epochs each. *)
Definition X4 : DataFrame cell :=
  mkDataFrame [LStr "Optimizer"; LStr "epoch"]
    [[CStr "SGD"; CInt 1]; [CStr "SGD"; CInt 2];
     [CStr "Adam"; CInt 1]; [CStr "Adam"; CInt 2]].

Definition Y4 : DataFrame cell :=
  mkDataFrame [LStr "valid-acc"]
    [[CFloat 0.25]; [CFloat 0.5]; [CFloat 0.125]; [CFloat 0.75]].

Definition G4 : DataFrame Z :=
  mkDataFrame [LStr "ModelIndex"] [[1%Z]; [1%Z]; [2%Z]; [2%Z]].

Definition no_draws : NumpyDraws := mkDraws 0 0 0 0 0.

(** The attributes as [__init__] assigns them, before it sets the
    hyperparameters. *)
Definition blank : XGBSurrogate unit nat :=
  mkSurrogate () 500 None None None None None false.

(** [XGBSurrogate()] *)
Definition fresh : XGBSurrogate unit nat := (init_default () no_draws).1.

(** The same after a successful [fit(X4, Y4, G4, test_size=0.5)]. *)
Definition fitted : XGBSurrogate unit nat :=
  (fit sklearn X4 Y4 (Some G4) true 0.5 None 10 5 false StrataNone fresh).1.

End Ref.

(** More of the same, for the rest of the module. *)
Module RefMore.

(** The environment of [Ref] with a scoring function that fails. *)
Definition sklearn_failing_score : SkLearn unit nat :=
  {| sk_split := Ref.split;
     sk_pipeline_fit := λ _ _ Y, Ok (length (columns Y));
     sk_search_fit := λ _ _ _ _ _ _ Y _, Ok (length (columns Y));
     sk_predict := Ref.predict_constant;
     sk_r2_score := λ _ _, Raise (ValueError "Input contains NaN.");
     sk_mean_squared_error := λ _ _, Ok 0%float |}.

(** A configuration space of two hyperparameters; every sample is the same
    configuration. *)
Definition lib : ConfigSpaceLib unit :=
  {| cs_sample_values := λ _ _ n,
       Ok (mkArray 2 (replicate n [CStr "SGD"; CFloat 0.5]));
     cs_hyperparameter_names := λ _, ["Optimizer"; "LearningRate"];
     rs_random := λ _ _, 0.25%float |}.

End RefMore.

(** * Facts about the embedded values *)

Section FloatFacts.

(** A float that compares equal to [0.] is one of the two zeros, so the
    range check lets it through. *)
Lemma eqb_zero_not_rejected (t : float) :
  (t =? 0)%float = true → test_size_rejected t = false.
Proof.
  unfold test_size_rejected.
  rewrite FloatAxioms.eqb_spec, !FloatAxioms.ltb_spec.
  destruct (Prim2SF t) as [b| b | |b m e]; vm_compute; try destruct b; congruence.
Qed.

Example rejects_1_5 : test_size_rejected 1.5 = true.
Proof. reflexivity. Qed.

Example rejects_negative : test_size_rejected (-0.25) = true.
Proof. reflexivity. Qed.

Example accepts_1_0 : test_size_rejected 1 = false.
Proof. reflexivity. Qed.

Example py_int_division : py_truediv 1 0.25 ≫= py_int = Ok 4%Z.
Proof. reflexivity. Qed.

(** Float division rounds before [int] truncates. *)
Example py_int_division_rounds : py_truediv 1 0.75 ≫= py_int = Ok 1%Z.
Proof. reflexivity. Qed.

(** The order on binary64 values is asymmetric and excludes equality. *)
Lemma SFltb_asym x y : SFltb x y = true → SFltb y x = false.
Proof.
  unfold SFltb, SFcompare.
  destruct x as [[]|[]| |[] m1 e1], y as [[]|[]| |[] m2 e2]; try done.
  all: rewrite (Z.compare_antisym e1 e2); destruct (e1 ?= e2)%Z; simpl; try done.
  all: change (Pos.compare_cont Eq m2 m1) with (Pos.compare m2 m1);
       change (Pos.compare_cont Eq m1 m2) with (Pos.compare m1 m2);
       rewrite (Pos.compare_antisym m1 m2); destruct (m1 ?= m2)%positive; done.
Qed.

Lemma SFltb_not_eqb x y : SFltb x y = true → SFeqb y x = false.
Proof.
  intros H. unfold SFltb in H. unfold SFeqb.
  destruct (SFcompare x y) as [[]|] eqn:E1; try done. clear H.
  unfold SFcompare in *.
  destruct x as [[]|[]| |[] m1 e1], y as [[]|[]| |[] m2 e2]; try done.
  all: rewrite (Z.compare_antisym e1 e2); destruct (e1 ?= e2)%Z; simpl in *; try done.
  all: change (Pos.compare_cont Eq m2 m1) with (Pos.compare m2 m1);
       change (Pos.compare_cont Eq m1 m2) with (Pos.compare m1 m2) in E1;
       rewrite (Pos.compare_antisym m1 m2); destruct (m1 ?= m2)%positive; done.
Qed.

Lemma SFleb_not_ltb x y : SFleb x y = true → SFltb y x = false.
Proof.
  unfold SFleb, SFltb, SFcompare.
  destruct x as [[]|[]| |[] m1 e1], y as [[]|[]| |[] m2 e2]; try done.
  all: rewrite (Z.compare_antisym e1 e2); destruct (e1 ?= e2)%Z; simpl; try done.
  all: change (Pos.compare_cont Eq m2 m1) with (Pos.compare m2 m1);
       change (Pos.compare_cont Eq m1 m2) with (Pos.compare m1 m2);
       rewrite (Pos.compare_antisym m1 m2); destruct (m1 ?= m2)%positive; done.
Qed.

(** The range check lets through the whole closed interval from 0 to 1. *)
Lemma closed_unit_accepted (t : float) :
  (0 <=? t)%float = true → (t <=? 1)%float = true →
  test_size_rejected t = false.
Proof.
  unfold test_size_rejected.
  rewrite !FloatAxioms.leb_spec, !FloatAxioms.ltb_spec.
  intros H0 H1. by rewrite (SFleb_not_ltb _ _ H0), (SFleb_not_ltb _ _ H1).
Qed.

(** A test fraction strictly between 0 and 1 passes the range check and is
    not the "no test split" case. *)
Lemma open_unit_accepted (t : float) :
  (0 <? t)%float = true → (t <? 1)%float = true →
  test_size_rejected t = false ∧ (t =? 0)%float = false.
Proof.
  unfold test_size_rejected.
  rewrite FloatAxioms.eqb_spec, !FloatAxioms.ltb_spec.
  intros H0 H1. rewrite (SFltb_asym _ _ H0), (SFltb_asym _ _ H1).
  by rewrite (SFltb_not_eqb _ _ H0).
Qed.

End FloatFacts.

Section ListFacts.

Context {B : Type}.
Implicit Types (l k : list B) (idx : list nat).

Lemma omap_id_Some l : omap id (Some <$> l) = l.
Proof. induction l as [|x l IH]; csimpl; [done | by rewrite IH]. Qed.

Lemma lookups_of_Forall2 l idx k :
  Forall2 (λ i x, l !! i = Some x) idx k → (l !!.) <$> idx = Some <$> k.
Proof. induction 1 as [|i x idx k Hi _ IH]; csimpl; [done | by rewrite Hi, IH]. Qed.

Lemma lookups_seq l : (l !!.) <$> seq 0 (length l) = Some <$> l.
Proof.
  apply list_eq; intros i. rewrite !list_lookup_fmap.
  destruct (decide (i < length l)) as [Hi | Hi].
  - rewrite lookup_seq_lt by done. simpl.
    destruct (lookup_lt_is_Some_2 l i Hi) as [x Hx]. by rewrite Hx.
  - rewrite lookup_seq_ge by lia. rewrite lookup_ge_None_2 by lia. done.
Qed.

End ListFacts.

Section FrameFacts.

Context {A : Type}.
Implicit Types (df : DataFrame A) (idx tr te : list nat).

Lemma iloc_Ok df idx a :
  iloc df idx = Ok a ↔
  columns a = columns df ∧ Forall2 (λ i x, rows df !! i = Some x) idx (rows a).
Proof.
  unfold iloc. destruct (mapM _ idx) as [rs|] eqn:E; simpl.
  - apply mapM_Some in E. split.
    + intros [= <-]. done.
    + intros [Hc HF]. apply mapM_Some in E, HF.
      destruct a as [ca ra]; simpl in *. by simplify_eq.
  - split; [done | intros [_ HF%mapM_Some]]. congruence.
Qed.

(** Row positions within range can be selected. *)
Lemma iloc_in_range df idx :
  Forall (λ i, i < length (rows df)) idx → ∃ a, iloc df idx = Ok a.
Proof.
  intros Hin. unfold iloc.
  destruct (mapM_is_Some_2 (λ i, rows df !! i) idx) as [rs ->]; [|by eexists].
  eapply Forall_impl; [exact Hin|]. intros i Hi. by apply lookup_lt_is_Some_2.
Qed.

(** Selecting the two sides of a partition of the row positions keeps every
    row, with its multiplicity. *)
Lemma iloc_partition df tr te a b :
  tr ++ te ≡ₚ seq 0 (length (rows df)) →
  iloc df tr = Ok a → iloc df te = Ok b →
  rows a ++ rows b ≡ₚ rows df.
Proof.
  intros Hperm [_ Ha]%iloc_Ok [_ Hb]%iloc_Ok.
  rewrite <- (omap_id_Some (rows a ++ rows b)), <- (omap_id_Some (rows df)).
  apply omap_Permutation.
  rewrite fmap_app, <- (lookups_of_Forall2 _ _ _ Ha),
    <- (lookups_of_Forall2 _ _ _ Hb), <- fmap_app, <- lookups_seq.
  by apply fmap_Permutation.
Qed.

Lemma partition_in_range tr te n :
  tr ++ te ≡ₚ seq 0 n → Forall (λ i, i < n) tr ∧ Forall (λ i, i < n) te.
Proof.
  intros Hperm.
  assert (Forall (λ i, i < n) (tr ++ te)) as [??]%Forall_app; [|done].
  rewrite Hperm. apply Forall_forall. intros i Hi%elem_of_seq. lia.
Qed.

End FrameFacts.

Section RefFacts.

Lemma ref_contract : sk_contract Ref.sklearn.
Proof.
  split; simpl; unfold Ref.split; intros s X y g folds tr te.
  - destruct (from_option _ _ _); [done|].
    destruct (group_aware s && _); [done|]. intros [= <-] Hin.
    apply list_elem_of_singleton in Hin as [= -> ->].
    rewrite Permutation_app_comm. apply filter_app_complement.
  - intros Hs. rewrite Hs. destruct (from_option _ _ _); [done|]. simpl.
    intros [= <-] Hin.
    apply list_elem_of_singleton in Hin as [= -> ->].
    intros i j gi gj [Hi _]%list_elem_of_filter [Hj _]%list_elem_of_filter.
    simpl in Hi, Hj. rewrite Hs in Hi, Hj. congruence.
Qed.

Example ref_split_groups :
  Ref.split (GroupShuffleSplit 2 None) Ref.X4 [] (Some Ref.G4)
  = Ok [([2; 3], [0; 1])].
Proof. reflexivity. Qed.

Example ref_fitted_trained : trained_ Ref.fitted = true.
Proof. reflexivity. Qed.

(** With groups and a test split, [fit] runs to its end. *)
Example ref_fit_returns :
  ∃ scores,
    (fit Ref.sklearn Ref.X4 Ref.Y4 (Some Ref.G4) true 0.5 None 10 5 false
       StrataNone Ref.fresh).2 = Ok scores
    ∧ dom scores = {["train_r2"; "train_mse"; "test_r2"; "test_mse"]}.
Proof. eexists. split; [reflexivity|]. set_solver. Qed.

End RefFacts.

(** * [prepare_dataset_for_training] *)

Section PrepareFacts.

Context {ConfigSpace Model : Type} (sk : SkLearn ConfigSpace Model).
Implicit Types (X Y : DataFrame cell) (G : DataFrame Z) (t : float).
Implicit Types (st : bool) (k : Z) (rs : RandomState) (strata : strata_arg).

(** The K-fold constructors return exactly from two folds on. *)
Lemma check_n_splits_Ok k : (2 ≤ k)%Z → check_n_splits k = Ok ().
Proof.
  intros Hk. unfold check_n_splits.
  by destruct (Z.leb_spec k 1); [lia|].
Qed.

Lemma check_n_splits_inv k u : check_n_splits k = Ok u → (2 ≤ k)%Z.
Proof.
  unfold check_n_splits. by destruct (Z.leb_spec k 1); [|lia].
Qed.


Lemma new_KFold_Ok k b : (2 ≤ k)%Z → new_KFold k b = Ok (KFold k b).
Proof. intros Hk. unfold new_KFold. by rewrite check_n_splits_Ok. Qed.

Lemma new_GroupKFold_Ok k : (2 ≤ k)%Z → new_GroupKFold k = Ok (GroupKFold k).
Proof. intros Hk. unfold new_GroupKFold. by rewrite check_n_splits_Ok. Qed.

Lemma new_KFold_inv k b cv :
  new_KFold k b = Ok cv → (2 ≤ k)%Z ∧ cv = KFold k b.
Proof.
  unfold new_KFold. destruct (check_n_splits k) as [u|] eqn:E; [|done].
  intros [= <-]. split; [by eapply check_n_splits_inv|done].
Qed.

Lemma new_GroupKFold_inv k cv :
  new_GroupKFold k = Ok cv → (2 ≤ k)%Z ∧ cv = GroupKFold k.
Proof.
  unfold new_GroupKFold. destruct (check_n_splits k) as [u|] eqn:E; [|done].
  intros [= <-]. split; [by eapply check_n_splits_inv|done].
Qed.

(** The range check comes first and raises the module's own error. *)
Lemma prepare_rejected X Y g t rs k st strata :
  test_size_rejected t = true →
  prepare_dataset_for_training sk X Y g t rs k st strata
  = Raise (ValueError test_size_message).
Proof.
  intros Ht. unfold prepare_dataset_for_training, prepare_locals.
  by rewrite Ht.
Qed.

(** Without groups no path binds [groups_train]: the call never returns. *)
Lemma prepare_without_groups_never_returns X Y t rs k st strata r :
  prepare_dataset_for_training sk X Y None t rs k st strata ≠ Ok r.
Proof.
  unfold prepare_dataset_for_training, prepare_locals.
  destruct (test_size_rejected t); [done|].
  destruct (t =? 0)%float.
  { by destruct (new_KFold k false). }
  intros H. simpl in H.
  destruct (resolve_strata Y strata) as [y|]; simpl in H; [|done].
  destruct (sk_split sk _ X y None) as [[|[tr te] folds]|]; simpl in H;
    try done.
  destruct (iloc X tr); simpl in H; [|done].
  destruct (iloc X te); simpl in H; [|done].
  destruct (iloc Y tr); simpl in H; [|done].
  destruct (iloc Y te); simpl in H; [|done].
  by destruct (new_KFold k false).
Qed.

(** With groups, a call that returns went through the grouped branch. *)
Lemma prepare_with_groups_inv X Y G t rs k st strata r :
  prepare_dataset_for_training sk X Y (Some G) t rs k st strata = Ok r →
  ∃ y n tr te folds xtrain xtest ytrain ytest gtrain,
    resolve_strata Y strata = Ok y ∧
    py_truediv 1 t ≫= py_int = Ok n ∧
    sk_split sk (if st then StratifiedGroupKFold n true rs
                 else GroupShuffleSplit n rs) X y (Some G)
      = Ok ((tr, te) :: folds) ∧
    iloc X tr = Ok xtrain ∧ iloc X te = Ok xtest ∧
    iloc Y tr = Ok ytrain ∧ iloc Y te = Ok ytest ∧
    iloc G tr = Ok gtrain ∧
    r = (xtrain, Some xtest, ytrain, Some ytest, gtrain, GroupKFold k).
Proof.
  unfold prepare_dataset_for_training, prepare_locals.
  destruct (test_size_rejected t); [done|].
  destruct (t =? 0)%float.
  { by destruct (new_GroupKFold k). }
  intros H. simpl in H.
  destruct (resolve_strata Y strata) as [y|] eqn:Ey; simpl in H; [|done].
  destruct (py_truediv 1 t ≫= py_int) as [n|] eqn:En; simpl in H; [|done].
  destruct (sk_split sk _ X y (Some G)) as [[|[tr te] folds]|] eqn:Es;
    simpl in H; try done.
  destruct (iloc X tr) as [xtrain|] eqn:E1; simpl in H; [|done].
  destruct (iloc X te) as [xtest|] eqn:E2; simpl in H; [|done].
  destruct (iloc Y tr) as [ytrain|] eqn:E3; simpl in H; [|done].
  destruct (iloc Y te) as [ytest|] eqn:E4; simpl in H; [|done].
  destruct (iloc G tr) as [gtrain|] eqn:E5; simpl in H; [|done].
  destruct (new_GroupKFold k) as [cv|] eqn:Ecv; simpl in H; [|done].
  apply new_GroupKFold_inv in Ecv as [_ ->].
  injection H as Hr. subst r.
  exists y, n, tr, te, folds, xtrain, xtest, ytrain, ytest, gtrain. done.
Qed.

(** A call that returns was given at least two folds. *)
Lemma prepare_returns_n_splits X Y g t rs k st strata r :
  prepare_dataset_for_training sk X Y g t rs k st strata = Ok r → (2 ≤ k)%Z.
Proof.
  destruct g as [G|]; [|by intros ?%prepare_without_groups_never_returns].
  unfold prepare_dataset_for_training, prepare_locals.
  destruct (test_size_rejected t); [done|].
  destruct (t =? 0)%float.
  { by destruct (new_GroupKFold k). }
  intros H. simpl in H.
  destruct (resolve_strata Y strata) as [y|]; simpl in H; [|done].
  destruct (py_truediv 1 t ≫= py_int) as [n|]; simpl in H; [|done].
  destruct (sk_split sk _ X y (Some G)) as [[|[tr te] folds]|];
    simpl in H; try done.
  destruct (iloc X tr); simpl in H; [|done].
  destruct (iloc X te); simpl in H; [|done].
  destruct (iloc Y tr); simpl in H; [|done].
  destruct (iloc Y te); simpl in H; [|done].
  destruct (iloc G tr); simpl in H; [|done].
  destruct (new_GroupKFold k) as [cv|] eqn:Ecv; simpl in H; [|done].
  by apply new_GroupKFold_inv in Ecv as [? _].
Qed.

(** With groups and a test fraction the checks let through, the call
    returns as soon as the library yields a split of tables of one length. *)
Lemma prepare_with_groups_returns X Y G t rs k st strata y n tr te folds :
  sk_contract sk →
  length (rows Y) = length (rows X) → length (rows G) = length (rows X) →
  test_size_rejected t = false → (t =? 0)%float = false → (2 ≤ k)%Z →
  resolve_strata Y strata = Ok y →
  py_truediv 1 t ≫= py_int = Ok n →
  sk_split sk (if st then StratifiedGroupKFold n true rs
               else GroupShuffleSplit n rs) X y (Some G)
    = Ok ((tr, te) :: folds) →
  ∃ xtrain xtest ytrain ytest gtrain,
    prepare_dataset_for_training sk X Y (Some G) t rs k st strata
    = Ok (xtrain, Some xtest, ytrain, Some ytest, gtrain, GroupKFold k).
Proof.
  intros Hsk HY HG Hrej Hz Hk Hy Hn Hs.
  pose proof (split_partition sk Hsk _ _ _ _ _ tr te Hs
                ltac:(apply list_elem_of_here)) as Hperm.
  destruct (partition_in_range _ _ _ Hperm) as [Htr Hte].
  destruct (iloc_in_range X tr Htr) as [xtrain E1].
  destruct (iloc_in_range X te Hte) as [xtest E2].
  destruct (iloc_in_range Y tr) as [ytrain E3]; [by rewrite HY|].
  destruct (iloc_in_range Y te) as [ytest E4]; [by rewrite HY|].
  destruct (iloc_in_range G tr) as [gtrain E5]; [by rewrite HG|].
  exists xtrain, xtest, ytrain, ytest, gtrain.
  unfold prepare_dataset_for_training, prepare_locals.
  rewrite Hrej, Hz, Hy. simpl. rewrite Hn. simpl. rewrite Hs. simpl.
  rewrite E1. simpl. rewrite E2. simpl. rewrite E3. simpl. rewrite E4. simpl.
  rewrite E5. simpl. by rewrite new_GroupKFold_Ok.
Qed.

(** With groups, the two sides a call returns hold every input row once. *)
Lemma prepare_with_groups_partition X Y G t rs k st strata
    xtrain xtest ytrain ytest gtrain cv :
  sk_contract sk →
  prepare_dataset_for_training sk X Y (Some G) t rs k st strata
  = Ok (xtrain, Some xtest, ytrain, Some ytest, gtrain, cv) →
  rows xtrain ++ rows xtest ≡ₚ rows X ∧
  (length (rows Y) = length (rows X) → rows ytrain ++ rows ytest ≡ₚ rows Y).
Proof.
  intros Hsk (y & n & tr & te & folds & ? & ? & ? & ? & ? & _ & _ & Hs
              & E1 & E2 & E3 & E4 & _ & Hr)%prepare_with_groups_inv.
  simplify_eq.
  pose proof (split_partition sk Hsk _ _ _ _ _ tr te Hs
                ltac:(apply list_elem_of_here)) as Hperm.
  split.
  - by eapply iloc_partition.
  - intros HY. rewrite <- HY in Hperm. by eapply iloc_partition.
Qed.

End PrepareFacts.

(** * The claims about [prepare_dataset_for_training] *)

(** C1. With a test fraction equal to 0 and at least two folds (fewer are
    refused by the K-fold constructor) the body takes the "no test split"
    path: it binds [xtrain] and [ytrain] to the input unchanged, [xtest] and
    [ytest] to [None], and [cv] to a plain K-fold (a grouped K-fold when
    groups are given).  That path never binds [groups_train], which the
    [return] reads: the call raises [UnboundLocalError] instead of returning,
    and so does every call of [fit] that reaches it. *)
Theorem test_size_zero_raises_unbound_local
    {ConfigSpace Model} (sk : SkLearn ConfigSpace Model)
    (X Y : DataFrame cell) (g : option (DataFrame Z)) (t : float)
    (rs : RandomState) (k : Z) (st : bool) (strata : strata_arg) :
  (t =? 0)%float = true → (2 ≤ k)%Z →
  prepare_locals sk X Y g t rs k st strata
  = Ok {| l_xtrain := Some X; l_xtest := Some None;
          l_ytrain := Some Y; l_ytest := Some None;
          l_groups_train := None;
          l_cv := Some (match g with
                        | None => KFold k false
                        | Some _ => GroupKFold k
                        end) |}
  ∧ prepare_dataset_for_training sk X Y g t rs k st strata
    = Raise (UnboundLocalError "groups_train")
  ∧ ∀ (s : XGBSurrogate ConfigSpace Model) hpo iters,
      (∃ e, (fit sk X Y g hpo t rs iters k st strata s).2 = Raise e) ∧
      (feature_headers s = None → label_headers s = None →
       (fit sk X Y g hpo t rs iters k st strata s).2
       = Raise (UnboundLocalError "groups_train")).
Proof.
  intros Hz Hk. pose proof (eqb_zero_not_rejected t Hz) as Hrej.
  assert (∀ X' Y', prepare_dataset_for_training sk X' Y' g t rs k st strata
                   = Raise (UnboundLocalError "groups_train")) as Hraise.
  { intros X' Y'. unfold prepare_dataset_for_training, prepare_locals.
    rewrite Hrej, Hz.
    by destruct g; rewrite ?new_KFold_Ok, ?new_GroupKFold_Ok. }
  split; [|split].
  - unfold prepare_locals. rewrite Hrej, Hz.
    by destruct g; rewrite ?new_KFold_Ok, ?new_GroupKFold_Ok.
  - apply Hraise.
  - intros s hpo iters. split.
    + unfold fit, fit_body, fix_feature_headers, fix_label_headers, bind,
        self, assign, ret, lift. simpl.
      destruct (feature_headers s) as [fh|]; simpl;
        [destruct (loc_cols X fh); simpl; [|by eexists]|];
        (destruct (label_headers s) as [lh|]; simpl;
           [destruct (loc_cols Y lh); simpl; [|by eexists]|]);
        rewrite Hraise; by eexists.
    + intros Hfh Hlh.
      unfold fit, fit_body, fix_feature_headers, fix_label_headers, bind,
        self, assign, ret, lift.
      simpl. rewrite Hfh. simpl. rewrite Hlh. simpl. by rewrite Hraise.
Qed.

Lemma test_size_zero_raises_unbound_local_witness :
  (0 =? 0)%float = true ∧ (2 ≤ 5)%Z ∧
  prepare_dataset_for_training Ref.sklearn Ref.X4 Ref.Y4 None 0 None 5 true
    StrataNone
  = Raise (UnboundLocalError "groups_train").
Proof.
  split; [reflexivity|]. split; [lia|].
  apply (test_size_zero_raises_unbound_local Ref.sklearn Ref.X4 Ref.Y4 None 0
           None 5 true StrataNone).
  - reflexivity.
  - lia.
Defined.

(** C2. The range check is [test_size > 1. or test_size < 0.], so it lets
    [test_size = 1.0] through, although the docstring and the error message
    give the range as [0, 1): with groups, [stratify=False] and at least two
    folds the call then asks for one [GroupShuffleSplit] and returns whatever
    split the library yields, without any validation error. *)
Theorem test_size_one_is_accepted
    {ConfigSpace Model} (sk : SkLearn ConfigSpace Model)
    (X Y : DataFrame cell) (G : DataFrame Z) (rs : RandomState) (k : Z)
    (strata : strata_arg) (y : list cell) (tr te : list nat)
    (folds : list (list nat * list nat)) :
  sk_contract sk →
  length (rows Y) = length (rows X) → length (rows G) = length (rows X) →
  (2 ≤ k)%Z →
  resolve_strata Y strata = Ok y →
  sk_split sk (GroupShuffleSplit 1 rs) X y (Some G) = Ok ((tr, te) :: folds) →
  test_size_rejected 1 = false ∧
  ∃ xtrain xtest ytrain ytest gtrain,
    prepare_dataset_for_training sk X Y (Some G) 1 rs k false strata
    = Ok (xtrain, Some xtest, ytrain, Some ytest, gtrain, GroupKFold k).
Proof.
  intros Hsk HY HG Hk Hy Hs. split; [reflexivity|].
  by eapply (prepare_with_groups_returns sk X Y G 1 rs k false strata y 1%Z).
Qed.

Lemma test_size_one_is_accepted_witness :
  ∃ xtrain xtest ytrain ytest gtrain,
    prepare_dataset_for_training Ref.sklearn Ref.X4 Ref.Y4 (Some Ref.G4) 1
      None 5 false StrataNone
    = Ok (xtrain, Some xtest, ytrain, Some ytest, gtrain, GroupKFold 5).
Proof.
  apply (test_size_one_is_accepted Ref.sklearn Ref.X4 Ref.Y4 Ref.G4 None 5
           StrataNone (CFloat <$> [0.25; 0.5; 0.125; 0.75])%float
           [2; 3] [0; 1] []).
  - exact ref_contract.
  - reflexivity.
  - reflexivity.
  - lia.
  - reflexivity.
  - reflexivity.
Defined.

(** C8. Without groups, with a test fraction strictly between 0 and 1 and
    at least two folds, the body draws the split, selects the rows of both
    sides and builds the K-fold, but that path does not bind [groups_train]
    either: once the library has yielded its split, the [return] raises
    [UnboundLocalError], so no partition is returned. *)
Theorem prepare_without_groups_raises_unbound_local
    {ConfigSpace Model} (sk : SkLearn ConfigSpace Model)
    (X Y : DataFrame cell) (t : float) (rs : RandomState) (k : Z) (st : bool)
    (strata : strata_arg) (y : list cell) (tr te : list nat)
    (folds : list (list nat * list nat)) :
  sk_contract sk →
  length (rows Y) = length (rows X) →
  (0 <? t)%float = true → (t <? 1)%float = true → (2 ≤ k)%Z →
  resolve_strata Y strata = Ok y →
  sk_split sk (if st then StratifiedShuffleSplit 1 t rs
               else ShuffleSplit 1 t rs) X y None
    = Ok ((tr, te) :: folds) →
  prepare_dataset_for_training sk X Y None t rs k st strata
  = Raise (UnboundLocalError "groups_train").
Proof.
  intros Hsk HY H0 H1 Hk Hy Hs.
  destruct (open_unit_accepted t H0 H1) as [Hrej Hz].
  pose proof (split_partition sk Hsk _ _ _ _ _ tr te Hs
                ltac:(apply list_elem_of_here)) as Hperm.
  destruct (partition_in_range _ _ _ Hperm) as [Htr Hte].
  destruct (iloc_in_range X tr Htr) as [xtrain E1].
  destruct (iloc_in_range X te Hte) as [xtest E2].
  destruct (iloc_in_range Y tr) as [ytrain E3]; [by rewrite HY|].
  destruct (iloc_in_range Y te) as [ytest E4]; [by rewrite HY|].
  unfold prepare_dataset_for_training, prepare_locals.
  rewrite Hrej, Hz, Hy. simpl. rewrite Hs. simpl.
  rewrite E1. simpl. rewrite E2. simpl. rewrite E3. simpl. rewrite E4. simpl.
  by rewrite new_KFold_Ok.
Qed.

Lemma prepare_without_groups_raises_unbound_local_witness :
  prepare_dataset_for_training Ref.sklearn Ref.X4 Ref.Y4 None 0.5 None 5
    false StrataNone
  = Raise (UnboundLocalError "groups_train").
Proof.
  apply (prepare_without_groups_raises_unbound_local Ref.sklearn Ref.X4 Ref.Y4
           0.5 None 5 false StrataNone
           (CFloat <$> [0.25; 0.5; 0.125; 0.75])%float [1; 2; 3] [0] []).
  - exact ref_contract.
  - reflexivity.
  - reflexivity.
  - reflexivity.
  - lia.
  - reflexivity.
  - reflexivity.
Defined.

(** C9. Whenever groups are supplied and the call returns, the split was
    drawn by a group-aware cross-validator that was handed the groups, so no
    group id of the training rows is the group id of a test row; the
    returned generator is a grouped K-fold and the returned training groups
    are aligned with the training rows, so no fold it produces on them has a
    group id on both sides. *)
Theorem groups_stay_on_one_side
    {ConfigSpace Model} (sk : SkLearn ConfigSpace Model)
    (X Y : DataFrame cell) (G : DataFrame Z) (t : float) (rs : RandomState)
    (k : Z) (st : bool) (strata : strata_arg)
    (xtrain ytrain : DataFrame cell) (xtest ytest : option (DataFrame cell))
    (gtrain : DataFrame Z) (cv : splitter) :
  sk_contract sk →
  prepare_dataset_for_training sk X Y (Some G) t rs k st strata
  = Ok (xtrain, xtest, ytrain, ytest, gtrain, cv) →
  (∃ idx_train idx_test xte yte,
      xtest = Some xte ∧ ytest = Some yte ∧
      iloc X idx_train = Ok xtrain ∧ iloc X idx_test = Ok xte ∧
      iloc Y idx_train = Ok ytrain ∧ iloc Y idx_test = Ok yte ∧
      iloc G idx_train = Ok gtrain ∧
      ∀ gid, gid ∈ rows gtrain →
             ¬ ∃ j, j ∈ idx_test ∧ rows G !! j = Some gid)
  ∧ cv = GroupKFold k
  ∧ ∀ y' folds tr va,
      sk_split sk cv xtrain y' (Some gtrain) = Ok folds → (tr, va) ∈ folds →
      ∀ i j gi gj, i ∈ tr → j ∈ va →
        rows gtrain !! i = Some gi → rows gtrain !! j = Some gj → gi ≠ gj.
Proof.
  intros Hsk (y & n & tr & te & folds & xtr & xte & ytr & yte & gtr & _ & _
              & Hs & E1 & E2 & E3 & E4 & E5 & Hr)%prepare_with_groups_inv.
  simplify_eq. split; [|split; [done|]].
  - exists tr, te, xte, yte. repeat (split; [done|]).
    intros gid [p Hp]%list_elem_of_lookup_1 (j & Hj & Hgj).
    apply iloc_Ok in E5 as [_ HF].
    destruct (Forall2_lookup_r _ _ _ _ _ HF Hp) as (i & Hi & Hgi).
    apply list_elem_of_lookup_2 in Hi.
    refine (split_groups sk Hsk _ _ _ _ _ tr te _ Hs
              ltac:(apply list_elem_of_here) i j gid gid Hi Hj Hgi Hgj eq_refl).
    by destruct st.
  - intros y' folds' tr' va Hcv Hin.
    by apply (split_groups sk Hsk (GroupKFold k) _ _ _ _ tr' va eq_refl Hcv Hin).
Qed.

Lemma groups_stay_on_one_side_witness :
  prepare_dataset_for_training Ref.sklearn Ref.X4 Ref.Y4 (Some Ref.G4) 0.5
    None 5 false StrataNone
  = Ok (mkDataFrame (columns Ref.X4)
          [[CStr "Adam"; CInt 1]; [CStr "Adam"; CInt 2]],
        Some (mkDataFrame (columns Ref.X4)
                [[CStr "SGD"; CInt 1]; [CStr "SGD"; CInt 2]]),
        mkDataFrame (columns Ref.Y4) [[CFloat 0.125]; [CFloat 0.75]],
        Some (mkDataFrame (columns Ref.Y4) [[CFloat 0.25]; [CFloat 0.5]]),
        mkDataFrame (columns Ref.G4) [[2%Z]; [2%Z]],
        GroupKFold 5)
  ∧ ∃ idx_train idx_test : list nat,
      iloc Ref.G4 idx_train = Ok (mkDataFrame (columns Ref.G4) [[2%Z]; [2%Z]])
      ∧ ∀ gid, gid ∈ [[2%Z]; [2%Z]] →
               ¬ ∃ j, j ∈ idx_test ∧ rows Ref.G4 !! j = Some gid.
Proof.
  split; [reflexivity|].
  destruct (groups_stay_on_one_side Ref.sklearn Ref.X4 Ref.Y4 Ref.G4 0.5 None
              5 false StrataNone _ _ _ _ _ _ ref_contract eq_refl)
    as [(idx_train & idx_test & xte & yte & _ & _ & _ & _ & _ & _ & HG & Hdis)
        _].
  exists idx_train, idx_test. split; [exact HG | exact Hdis].
Defined.

(** * The claims about [set_random_hyperparams] *)

Section HyperparamFacts.

(** [np.random.choice(range(lo, hi))] returns an integer of the range. *)
Lemma np_random_choice_range lo hi pick :
  (lo < hi)%Z →
  ∃ z, np_random_choice (py_range lo hi) pick = Ok z ∧ (lo ≤ z < hi)%Z.
Proof.
  intros Hlt. unfold np_random_choice, py_range.
  assert (pick `mod` length (seqZ lo (hi - lo)) < length (seqZ lo (hi - lo)))%nat
    as Hin.
  { apply Nat.mod_upper_bound. rewrite length_seqZ. lia. }
  destruct (lookup_lt_is_Some_2 _ _ Hin) as [z Hz].
  exists z. rewrite Hz. split; [done|].
  apply list_elem_of_lookup_2, elem_of_seqZ in Hz. lia.
Qed.

Example loguniform_is_not_bound :
  resolve_global "loguniform" = Raise (NameError "loguniform").
Proof. reflexivity. Qed.

Example scipy_is_bound : resolve_global "scipy" = Ok ().
Proof. reflexivity. Qed.

(** The dict display draws [max_depth] and [min_child_weight] within their
    ranges and then fails to resolve [loguniform]. *)
Lemma random_hyperparams_raises rng :
  random_hyperparams rng = Raise (NameError "loguniform").
Proof.
  unfold random_hyperparams.
  destruct (np_random_choice_range 1 15 (pick_max_depth rng)) as (d & -> & _);
    [lia|].
  destruct (np_random_choice_range 1 10 (pick_min_child_weight rng))
    as (w & -> & _); [lia|].
  reflexivity.
Qed.

End HyperparamFacts.

(** C3. On an instance whose hyperparameters are set, the call draws
    [max_depth] from 1..14, [min_child_weight] from 1..9 and
    [colsample_bytree], and then evaluates the bare name [loguniform], which
    the module never binds ([_hpo_search_space] uses
    [scipy.stats.loguniform]): the call raises [NameError], returns no
    hyperparameter set and leaves the stored one as it was. *)
Theorem set_random_hyperparams_raises_name_error
    {ConfigSpace Model} (rng : NumpyDraws) (s : XGBSurrogate ConfigSpace Model)
    (hp : hdict) :
  hyperparams s = Some hp →
  set_random_hyperparams rng s = (s, Raise (NameError "loguniform")).
Proof.
  intros Hhp. unfold set_random_hyperparams, bind, self, lift. simpl.
  rewrite Hhp. simpl. by rewrite random_hyperparams_raises.
Qed.

Lemma set_random_hyperparams_raises_name_error_witness :
  hyperparams Ref.fresh = Some default_hyperparams ∧
  set_random_hyperparams (mkDraws 3 2 0.5 0.25 0.75) Ref.fresh
  = (Ref.fresh, Raise (NameError "loguniform")).
Proof.
  split; [reflexivity|].
  apply (set_random_hyperparams_raises_name_error _ Ref.fresh
           default_hyperparams).
  reflexivity.
Defined.

(** C4. On an instance whose hyperparameters are [None], the call returns
    the fixed default configuration and stores it as the instance's
    hyperparameters, whatever the random generator holds: after the call the
    attribute [hyperparams] is the default configuration, the value returned
    is that same configuration, and no other attribute has changed.  The
    default configuration has exactly the seven documented entries. *)
Theorem set_random_hyperparams_first_call
    {ConfigSpace Model} (rng : NumpyDraws) (s : XGBSurrogate ConfigSpace Model) :
  hyperparams s = None →
  set_random_hyperparams rng s
  = (set_hyperparams (Some default_hyperparams) s, Ok default_hyperparams)
  ∧ (set_random_hyperparams rng s).2 = Ok default_hyperparams
  ∧ hyperparams (set_random_hyperparams rng s).1 = Some default_hyperparams
  ∧ (config_space (set_random_hyperparams rng s).1 = config_space s ∧
     estimators_per_output (set_random_hyperparams rng s).1
     = estimators_per_output s ∧
     use_gpu (set_random_hyperparams rng s).1 = use_gpu s ∧
     model (set_random_hyperparams rng s).1 = model s ∧
     feature_headers (set_random_hyperparams rng s).1 = feature_headers s ∧
     label_headers (set_random_hyperparams rng s).1 = label_headers s ∧
     trained_ (set_random_hyperparams rng s).1 = trained_ s)
  ∧ map_to_list default_hyperparams
    ≡ₚ [("objective", HStr "reg:squarederror"); ("booster", HStr "gbtree");
        ("max_depth", HInt 6); ("min_child_weight", HInt 1);
        ("colsample_bytree", HInt 1);
        ("learning_rate", HFloat 0x1.3333333333333p-2);
        ("colsample_bylevel", HInt 1)].
Proof.
  intros Hhp.
  assert (set_random_hyperparams rng s
          = (set_hyperparams (Some default_hyperparams) s,
             Ok default_hyperparams)) as Hcall.
  { unfold set_random_hyperparams, bind, self, ret, assign. simpl.
    by rewrite Hhp. }
  split; [done|]. rewrite Hcall.
  split; [reflexivity|]. split; [reflexivity|]. split.
  - by destruct s.
  - unfold default_hyperparams.
    rewrite !map_to_list_insert, map_to_list_empty by (by simplify_map_eq).
    done.
Qed.

Lemma set_random_hyperparams_first_call_witness :
  hyperparams Ref.blank = None ∧
  (set_random_hyperparams Ref.no_draws Ref.blank).2 = Ok default_hyperparams ∧
  hyperparams (set_random_hyperparams Ref.no_draws Ref.blank).1
  = Some default_hyperparams ∧
  trained_ (set_random_hyperparams Ref.no_draws Ref.blank).1 = false.
Proof.
  split; [reflexivity|].
  destruct (set_random_hyperparams_first_call Ref.no_draws Ref.blank eq_refl)
    as (_ & Hret & Hhp & (_ & _ & _ & _ & _ & _ & Htr) & _).
  split; [exact Hret|]. split; [exact Hhp|]. exact Htr.
Defined.

(** * [fit] and [predict]: the stored column orders *)

Section HeaderFacts.

Context {ConfigSpace Model : Type} (sk : SkLearn ConfigSpace Model).
Local Abbreviation Surrogate := (XGBSurrogate ConfigSpace Model).
Local Abbreviation Method := (@M ConfigSpace Model).

Lemma keeps_ret {A} (a : A) : keeps_headers (ret a : Method A).
Proof. by intros s. Qed.

Lemma keeps_lift {A} (r : result A) : keeps_headers (lift r : Method A).
Proof. by intros s. Qed.

Lemma keeps_self : keeps_headers (self : Method Surrogate).
Proof. by intros s. Qed.

Lemma keeps_set_model v :
  keeps_headers (assign (set_model v) : Method unit).
Proof. by intros s. Qed.

Lemma keeps_set_trained_ v :
  keeps_headers (assign (set_trained_ v) : Method unit).
Proof. by intros s. Qed.

Lemma keeps_bind {A B} (m : Method A) (k : A → Method B) :
  keeps_headers m → (∀ a, keeps_headers (k a)) → keeps_headers (bind m k).
Proof.
  intros Hm Hk s. unfold bind. specialize (Hm s).
  destruct (m s) as [s' [a|e]]; simpl in *; [|done].
  destruct (Hk a s') as [-> ->]. done.
Qed.

Lemma keeps_predict X : keeps_headers (predict sk X).
Proof. by intros s. Qed.

Lemma keeps_pipeline multiout :
  keeps_headers (_get_simple_pipeline multiout : Method (Pipeline ConfigSpace)).
Proof.
  unfold _get_simple_pipeline.
  apply keeps_bind; [apply keeps_self | intros s].
  apply keeps_bind; [apply keeps_lift | intros hp]. apply keeps_ret.
Qed.

Ltac keeps :=
  repeat first
    [ apply keeps_ret | apply keeps_lift | apply keeps_self
    | apply keeps_predict | apply keeps_pipeline
    | apply keeps_set_model | apply keeps_set_trained_
    | apply keeps_bind; [| intros ?]
    | progress cbv zeta
    | match goal with
      | |- keeps_headers (if ?b then _ else _) => destruct b
      | |- keeps_headers (match ?x with _ => _ end) => destruct x
      end ].

(** Past the first two statements, [fit] assigns only [model] and
    [trained_]. *)
Lemma fit_body_keeps_headers X Y g hpo t rs iters k st strata :
  keeps_headers (fit_body sk X Y g hpo t rs iters k st strata).
Proof. unfold fit_body. keeps. Qed.

(** [fit] on an instance that has both column orders: the call re-indexes
    its tables by them and goes on with the re-indexed tables. *)
Lemma fit_reindexes (s : Surrogate) fh lh X Y g hpo t rs iters k st strata :
  feature_headers s = Some fh → label_headers s = Some lh →
  fit sk X Y g hpo t rs iters k st strata s
  = match loc_cols X fh with
    | Raise e => (s, Raise e)
    | Ok X' =>
        match loc_cols Y lh with
        | Raise e => (s, Raise e)
        | Ok Y' => fit_body sk X' Y' g hpo t rs iters k st strata s
        end
    end.
Proof.
  intros Hfh Hlh.
  unfold fit, fix_feature_headers, fix_label_headers, bind, self, lift. simpl.
  rewrite Hfh. destruct (loc_cols X fh) as [X'|e]; [|done].
  rewrite Hlh. by destruct (loc_cols Y lh) as [Y'|e].
Qed.

Lemma fit_keeps_headers (s : Surrogate) fh lh X Y g hpo t rs iters k st strata :
  feature_headers s = Some fh → label_headers s = Some lh →
  feature_headers (fit sk X Y g hpo t rs iters k st strata s).1 = Some fh ∧
  label_headers (fit sk X Y g hpo t rs iters k st strata s).1 = Some lh.
Proof.
  intros Hfh Hlh. rewrite (fit_reindexes s fh lh) by done.
  destruct (loc_cols X fh) as [X'|e]; [|done].
  destruct (loc_cols Y lh) as [Y'|e]; [|done].
  destruct (fit_body_keeps_headers X' Y' g hpo t rs iters k st strata s)
    as [-> ->]. done.
Qed.

(** The first call records the columns of its tables before anything can
    fail, and nothing later in the call assigns them again. *)
Lemma fit_first_call_records (s : Surrogate) X Y g hpo t rs iters k st strata :
  feature_headers s = None → label_headers s = None →
  fit sk X Y g hpo t rs iters k st strata s
  = fit_body sk X Y g hpo t rs iters k st strata
      (set_label_headers (Some (columns Y))
         (set_feature_headers (Some (columns X)) s)).
Proof.
  intros Hfh Hlh.
  unfold fit, fix_feature_headers, fix_label_headers, bind, self, assign, ret.
  simpl. rewrite Hfh. simpl. by rewrite Hlh.
Qed.

(** Whatever its outcome, the first call leaves both orders set to the
    columns it was given. *)
Lemma fit_first_call_fixes_headers (s : Surrogate) X Y g hpo t rs iters k st
    strata :
  feature_headers s = None → label_headers s = None →
  feature_headers (fit sk X Y g hpo t rs iters k st strata s).1
  = Some (columns X) ∧
  label_headers (fit sk X Y g hpo t rs iters k st strata s).1
  = Some (columns Y).
Proof.
  intros Hfh Hlh. rewrite fit_first_call_records by done.
  by destruct (fit_body_keeps_headers X Y g hpo t rs iters k st strata
                 (set_label_headers (Some (columns Y))
                    (set_feature_headers (Some (columns X)) s))) as [-> ->].
Qed.

End HeaderFacts.

Section LocFacts.

Implicit Types (cs hs : list label) (h : label) (ps : list nat).

Lemma positions_from_absent i h cs : h ∉ cs → positions_from i h cs = [].
Proof.
  revert i. induction cs as [|c cs IH]; intros i Hh; simpl; [done|].
  apply not_elem_of_cons in Hh as [Hne Hh].
  destruct (decide (c = h)); [congruence | by apply IH].
Qed.

(** Among unique labels a label has at most one position. *)
Lemma positions_from_unique i h cs :
  NoDup cs →
  positions_from i h cs = [] ∨
  ∃ p, positions_from i h cs = [i + p] ∧ cs !! p = Some h.
Proof.
  intros Hnd. revert i.
  induction Hnd as [|c cs Hc Hnd IH]; intros i; simpl; [by left|].
  destruct (decide (c = h)) as [->|Hne].
  - right. exists 0. rewrite positions_from_absent by done.
    by rewrite Nat.add_0_r.
  - destruct (IH (S i)) as [->|(p & -> & Hp)]; [by left|].
    right. exists (S p). split; [f_equal; lia | done].
Qed.

Lemma loc_positions_labels cs hs ps :
  NoDup cs → loc_positions cs hs = Ok ps →
  ps ≫= (λ p, option_list (cs !! p)) = hs.
Proof.
  intros Hnd. revert ps. induction hs as [|h hs IH]; intros ps; simpl.
  - by intros [= <-].
  - unfold positions.
    destruct (positions_from_unique 0 h cs Hnd) as [->|(p & -> & Hp)]; [done|].
    destruct (loc_positions cs hs) as [rest|]; simpl; [|done].
    intros [= <-]. simpl. rewrite Hp. simpl. f_equal. by apply IH.
Qed.

(** Re-indexing a table with unique column labels yields exactly the
    requested columns, in the requested order. *)
Lemma loc_cols_columns {A} (X X' : DataFrame A) hs :
  NoDup (columns X) → loc_cols X hs = Ok X' → columns X' = hs.
Proof.
  intros Hnd. unfold loc_cols.
  destruct (loc_positions (columns X) hs) as [ps|] eqn:Eps; simpl; [|done].
  destruct (mapM _ (rows X)); simpl; [|done].
  intros [= <-]. simpl. by apply loc_positions_labels.
Qed.

(** Among unique labels, the positions [loc] selects are the positions of
    the requested labels, one each. *)
Lemma loc_positions_Forall2 cs hs ps :
  NoDup cs → loc_positions cs hs = Ok ps →
  Forall2 (λ h p, cs !! p = Some h) hs ps.
Proof.
  intros Hnd. revert ps. induction hs as [|h hs IH]; intros ps; simpl.
  - intros [= <-]. constructor.
  - unfold positions.
    destruct (positions_from_unique 0 h cs Hnd) as [->|(p & -> & Hp)]; [done|].
    destruct (loc_positions cs hs) as [rest|]; simpl; [|done].
    intros [= <-]. simpl. constructor; [done | by apply IH].
Qed.


Example loc_cols_reorders :
  loc_cols Ref.X4 [LStr "epoch"; LStr "Optimizer"]
  = Ok (mkDataFrame [LStr "epoch"; LStr "Optimizer"]
          [[CInt 1; CStr "SGD"]; [CInt 2; CStr "SGD"];
           [CInt 1; CStr "Adam"]; [CInt 2; CStr "Adam"]]).
Proof. reflexivity. Qed.

Example loc_cols_missing :
  loc_cols Ref.X4 [LStr "epoch"; LStr "Loss"] = Raise KeyError.
Proof. reflexivity. Qed.

End LocFacts.



(** C10. On an instance that has no column orders yet, a call of [fit] with
    a test fraction the range check rejects first records the columns of the
    given tables and only then raises the validation error; nothing else of
    the instance changes.  The recorded orders stay: every later call of
    [fit] re-indexes by them and leaves them in place. *)
Theorem fit_is_not_atomic
    {ConfigSpace Model} (sk : SkLearn ConfigSpace Model)
    (s : XGBSurrogate ConfigSpace Model) (X Y : DataFrame cell)
    (g : option (DataFrame Z)) (hpo : bool) (t : float) (rs : RandomState)
    (iters k : Z) (st : bool) (strata : strata_arg) :
  feature_headers s = None → label_headers s = None →
  test_size_rejected t = true →
  fit sk X Y g hpo t rs iters k st strata s
  = (set_label_headers (Some (columns Y))
       (set_feature_headers (Some (columns X)) s),
     Raise (ValueError test_size_message))
  ∧ ∀ X' Y' g' hpo' t' rs' iters' k' st' strata',
      feature_headers
        (fit sk X' Y' g' hpo' t' rs' iters' k' st' strata'
           (fit sk X Y g hpo t rs iters k st strata s).1).1
      = Some (columns X) ∧
      label_headers
        (fit sk X' Y' g' hpo' t' rs' iters' k' st' strata'
           (fit sk X Y g hpo t rs iters k st strata s).1).1
      = Some (columns Y).
Proof.
  intros Hfh Hlh Hrej.
  assert (fit sk X Y g hpo t rs iters k st strata s
          = (set_label_headers (Some (columns Y))
               (set_feature_headers (Some (columns X)) s),
             Raise (ValueError test_size_message))) as Hfit.
  { rewrite fit_first_call_records by done.
    unfold fit_body, bind, lift. by rewrite prepare_rejected. }
  split; [done|]. intros X' Y' g' hpo' t' rs' iters' k' st' strata'.
  rewrite Hfit. by apply fit_keeps_headers.
Qed.

Lemma fit_is_not_atomic_witness :
  fit Ref.sklearn Ref.X4 Ref.Y4 (Some Ref.G4) true 1.5 None 10 5 false
    StrataNone Ref.fresh
  = (set_label_headers (Some (columns Ref.Y4))
       (set_feature_headers (Some (columns Ref.X4)) Ref.fresh),
     Raise (ValueError test_size_message)).
Proof.
  apply (fit_is_not_atomic Ref.sklearn Ref.fresh Ref.X4 Ref.Y4 (Some Ref.G4)
           true 1.5 None 10 5 false StrataNone eq_refl eq_refl eq_refl).
Defined.

(** * [dump] and [load] *)

Section PersistenceFacts.

Context {ConfigSpace Model : Type} (sk : SkLearn ConfigSpace Model).
Context (joint_config_space : ConfigSpace).
Local Abbreviation Surrogate := (XGBSurrogate ConfigSpace Model).
Local Abbreviation Files := (FS ConfigSpace Model).
Implicit Types (s : Surrogate) (fs : Files) (outdir : string) (rng : NumpyDraws).

(** [cls()] never fails and does not consult the random generator. *)
Lemma init_default_instance rng :
  init_default joint_config_space rng
  = (mkSurrogate joint_config_space 500 (Some default_hyperparams) None None
       None None false : Surrogate, Ok ()).
Proof. reflexivity. Qed.

(** The parameter payload is written before anything can fail. *)
Lemma dump_writes_params s outdir protocol fs :
  files (dump s outdir protocol fs).1 !! (outdir, params_filename)
  = Some (PParams (params_of s))
  ∧ ∃ later, trace (dump s outdir protocol fs).1
             = later ++ Wrote (outdir, params_filename) :: trace fs.
Proof.
  unfold dump, io_bind, write_file, io_lift, io_ret. simpl.
  destruct (trained_ s); simpl.
  - destruct (label_headers s); simpl.
    + split; [by rewrite !lookup_insert_ne, lookup_insert_eq by done|].
      by exists [Wrote (outdir, model_filename);
                 Wrote (outdir, headers_filename)].
    + split; [by rewrite lookup_insert_eq | by exists []].
  - split; [by rewrite lookup_insert_eq | by exists []].
Qed.

Lemma dump_untrained s outdir protocol fs :
  trained_ s = false →
  dump s outdir protocol fs
  = (mkFS (<[(outdir, params_filename) := PParams (params_of s)]> (files fs))
       (Wrote (outdir, params_filename) :: trace fs), Ok ()).
Proof. intros Ht. unfold dump, io_bind, write_file, io_ret. by rewrite Ht. Qed.

Lemma dump_trained s outdir protocol fs lh :
  trained_ s = true → label_headers s = Some lh →
  dump s outdir protocol fs
  = (mkFS (<[(outdir, model_filename) := PModel (model s)]>
            (<[(outdir, headers_filename) := PSeries lh lh]>
              (<[(outdir, params_filename) := PParams (params_of s)]>
                (files fs))))
       (Wrote (outdir, model_filename) :: Wrote (outdir, headers_filename)
        :: Wrote (outdir, params_filename) :: trace fs), Ok ()).
Proof.
  intros Ht Hlh. unfold dump, io_bind, write_file, io_lift. simpl.
  by rewrite Ht, Hlh.
Qed.

Lemma load_untrained outdir rng fs p :
  files fs !! (outdir, params_filename) = Some (PParams p) →
  p_trained_ p = false →
  load joint_config_space outdir rng fs
  = (mkFS (files fs) (Read (outdir, params_filename) :: trace fs),
     Ok (restore_params p (init_default joint_config_space rng).1)).
Proof.
  intros Hp Ht. unfold load, io_bind, read_file, io_lift, io_ret.
  rewrite Hp. simpl. by rewrite Ht.
Qed.

Lemma load_trained outdir rng fs p index values m :
  files fs !! (outdir, params_filename) = Some (PParams p) →
  p_trained_ p = true →
  files fs !! (outdir, headers_filename) = Some (PSeries index values) →
  files fs !! (outdir, model_filename) = Some (PModel m) →
  load joint_config_space outdir rng fs
  = (mkFS (files fs)
       (Read (outdir, model_filename) :: Read (outdir, headers_filename)
        :: Read (outdir, params_filename) :: trace fs),
     Ok (set_model m
           (set_label_headers (Some values)
              (restore_params p (init_default joint_config_space rng).1)))).
Proof.
  intros Hp Ht Hh Hm. unfold load, io_bind, read_file, io_lift, io_ret.
  rewrite Hp. simpl. rewrite Ht. simpl. rewrite Hh. simpl. by rewrite Hm.
Qed.

(** A trained instance whose files are missing cannot be loaded: the
    payloads are asked for. *)
Lemma load_trained_needs_headers outdir rng fs p :
  files fs !! (outdir, params_filename) = Some (PParams p) →
  p_trained_ p = true →
  files fs !! (outdir, headers_filename) = None →
  (load joint_config_space outdir rng fs).2 = Raise FileNotFoundError.
Proof.
  intros Hp Ht Hh. unfold load, io_bind, read_file, io_lift, io_ret.
  rewrite Hp. simpl. rewrite Ht. simpl. by rewrite Hh.
Qed.

Lemma filenames_differ outdir :
  (outdir, params_filename) ≠ (outdir, headers_filename) ∧
  (outdir, params_filename) ≠ (outdir, model_filename) ∧
  (outdir, headers_filename) ≠ (outdir, model_filename).
Proof. by repeat split. Qed.

(** What [load] makes of what [dump] wrote for a trained instance. *)
Lemma load_after_dump_trained s outdir protocol rng fs lh :
  trained_ s = true → label_headers s = Some lh →
  (load joint_config_space outdir rng (dump s outdir protocol fs).1).2
  = Ok (mkSurrogate (config_space s) (estimators_per_output s) (hyperparams s)
          None (model s) (feature_headers s) (Some lh) true).
Proof.
  intros Ht Hlh. rewrite (dump_trained s outdir protocol fs lh) by done.
  destruct (filenames_differ outdir) as (H1 & H2 & H3).
  erewrite (load_trained outdir rng _ (params_of s) lh lh (model s)); simpl.
  - cbv [set_model set_label_headers restore_params set_trained_
           set_feature_headers set_config_space set_hyperparams
           set_estimators_per_output params_of
           config_space estimators_per_output hyperparams use_gpu model
           feature_headers label_headers trained_
           p_estimators_per_output p_hyperparams p_config_space
           p_label_headers p_feature_headers p_trained_].
    destruct s; simpl in Ht; by subst.
  - by rewrite !lookup_insert_ne, lookup_insert_eq by done.
  - done.
  - by rewrite lookup_insert_ne, lookup_insert_eq by done.
  - by rewrite lookup_insert_eq.
Qed.

End PersistenceFacts.

Section WellFormed.

Context {ConfigSpace Model : Type} (sk : SkLearn ConfigSpace Model).
Local Abbreviation Surrogate := (XGBSurrogate ConfigSpace Model).

Lemma init_well_formed cs n gpu rng :
  well_formed (init cs n gpu rng : Surrogate * result unit).1.
Proof. by intros Ht. Qed.

Lemma set_random_hyperparams_well_formed rng (s : Surrogate) :
  well_formed s → well_formed (set_random_hyperparams rng s).1.
Proof.
  intros Hwf. unfold set_random_hyperparams, bind, self, lift, ret, assign.
  simpl. destruct (hyperparams s); simpl; [|done].
  by destruct (random_hyperparams rng).
Qed.

(** [fit] sets [trained_] only on an instance whose label order is set. *)
Lemma fit_well_formed (s : Surrogate) X Y g hpo t rs iters k st strata :
  well_formed s → well_formed (fit sk X Y g hpo t rs iters k st strata s).1.
Proof.
  intros Hwf. unfold fit, bind at 1.
  destruct (fix_feature_headers X s) as [s1 [X'|e]] eqn:E1.
  - assert (label_headers s1 = label_headers s ∧ trained_ s1 = trained_ s)
      as [Hl1 Ht1].
    { revert E1. unfold fix_feature_headers, bind, self, assign, ret, lift.
      simpl. destruct (feature_headers s); simpl; by intros [= <- _]. }
    unfold bind.
    destruct (fix_label_headers Y s1) as [s2 [Y'|e]] eqn:E2.
    + assert (is_Some (label_headers s2)) as Hl2.
      { revert E2. unfold fix_label_headers, bind, self, assign, ret, lift.
        simpl. destruct (label_headers s1) eqn:E; simpl; intros [= <- _];
          simpl; [by rewrite E | done]. }
      intros _.
      by destruct (fit_body_keeps_headers sk X' Y' g hpo t rs iters k st
                     strata s2) as [_ ->].
    + assert (label_headers s2 = label_headers s1 ∧ trained_ s2 = trained_ s1)
        as [Hl2 Ht2].
      { revert E2. unfold fix_label_headers, bind, self, assign, ret, lift.
        simpl. destruct (label_headers s1) eqn:E; simpl; intros [= <- ?].
        by rewrite E. }
      simpl. unfold well_formed. rewrite Hl2, Ht2, Hl1, Ht1. exact Hwf.
  - assert (s1 = s) as ->; [|done].
    revert E1. unfold fix_feature_headers, bind, self, assign, ret, lift.
    simpl. destruct (feature_headers s); simpl; by intros [= <- _].
Qed.

End WellFormed.

(** C6. For a trained instance, [dump] succeeds, [load] from the same
    directory succeeds, and the loaded instance predicts exactly what the
    original predicts, on every input table (files are taken to hold what
    was written to them, and the model's [predict] to be a function of the
    model and the table). *)
Theorem dump_then_load_predicts_alike
    {ConfigSpace Model} (sk : SkLearn ConfigSpace Model)
    (joint_config_space : ConfigSpace) (s : XGBSurrogate ConfigSpace Model)
    (outdir : string) (protocol : Z) (rng : NumpyDraws)
    (fs : FS ConfigSpace Model) :
  trained_ s = true → well_formed s →
  (dump s outdir protocol fs).2 = Ok () ∧
  ∃ s', (load joint_config_space outdir rng (dump s outdir protocol fs).1).2
        = Ok s' ∧
        ∀ X, predict_of sk s' X = predict_of sk s X.
Proof.
  intros Ht Hwf. destruct (Hwf Ht) as [lh Hlh]. split.
  - by rewrite (dump_trained s outdir protocol fs lh).
  - eexists. split.
    + by apply (load_after_dump_trained joint_config_space s outdir protocol
                  rng fs lh).
    + intros X. unfold predict_of. simpl. by rewrite Hlh.
Qed.

Lemma dump_then_load_predicts_alike_witness :
  trained_ Ref.fitted = true ∧
  ∃ s', (load () "out" Ref.no_draws
           (dump Ref.fitted "out" 0 (mkFS ∅ [])).1).2 = Ok s' ∧
        ∀ X, predict_of Ref.sklearn s' X = predict_of Ref.sklearn Ref.fitted X.
Proof.
  split; [reflexivity|].
  apply (dump_then_load_predicts_alike Ref.sklearn () Ref.fitted "out" 0
           Ref.no_draws (mkFS ∅ [])).
  - reflexivity.
  - intros _. eexists. reflexivity.
Defined.

(** C7. [dump] always writes the parameter payload first: a file holding
    the number of estimators, the hyperparameters, the configuration space,
    the two column orders and the trained flag of the instance, and nothing
    of [use_gpu] or the model.  It then writes the label-column payload (the
    stored label order, as a series indexed by itself) and the model payload
    (the instance's model) exactly when the instance is trained; otherwise
    those two files are left as they were.  [load] reads the parameter
    payload and restores it onto a default instance: every persisted
    attribute comes from the payload, [use_gpu] and the model are the
    default [None].  It reads nothing else when the restored flag is unset,
    and reads the label-column payload and the model payload, putting them
    in place of the restored label order and the default model, when the
    flag is set (a missing payload is then an error). *)
Theorem dump_and_load_payloads
    {ConfigSpace Model} (joint_config_space : ConfigSpace)
    (s : XGBSurrogate ConfigSpace Model) (outdir : string) (protocol : Z)
    (rng : NumpyDraws) (fs : FS ConfigSpace Model) :
  well_formed s →
  ((dump s outdir protocol fs).2 = Ok () ∧
   files (dump s outdir protocol fs).1 !! (outdir, params_filename)
   = Some (PParams {| p_estimators_per_output := estimators_per_output s;
                      p_hyperparams := hyperparams s;
                      p_config_space := config_space s;
                      p_label_headers := label_headers s;
                      p_feature_headers := feature_headers s;
                      p_trained_ := trained_ s |}) ∧
   trace (dump s outdir protocol fs).1
   = (if trained_ s
      then [Wrote (outdir, model_filename); Wrote (outdir, headers_filename)]
      else [])
     ++ Wrote (outdir, params_filename) :: trace fs ∧
   (trained_ s = true →
    files (dump s outdir protocol fs).1 !! (outdir, model_filename)
    = Some (PModel (model s)) ∧
    ∀ lh, label_headers s = Some lh →
          files (dump s outdir protocol fs).1 !! (outdir, headers_filename)
          = Some (PSeries lh lh)) ∧
   (trained_ s = false →
    files (dump s outdir protocol fs).1 !! (outdir, model_filename)
    = files fs !! (outdir, model_filename) ∧
    files (dump s outdir protocol fs).1 !! (outdir, headers_filename)
    = files fs !! (outdir, headers_filename)))
  ∧ ∀ (fs0 : FS ConfigSpace Model) p,
      files fs0 !! (outdir, params_filename) = Some (PParams p) →
      (p_trained_ p = false →
       load joint_config_space outdir rng fs0
       = (mkFS (files fs0) (Read (outdir, params_filename) :: trace fs0),
          Ok (mkSurrogate (p_config_space p) (p_estimators_per_output p)
                (p_hyperparams p) None None (p_feature_headers p)
                (p_label_headers p) false)))
      ∧ (p_trained_ p = true →
         (files fs0 !! (outdir, headers_filename) = None →
          (load joint_config_space outdir rng fs0).2 = Raise FileNotFoundError)
         ∧ (∀ index values,
              files fs0 !! (outdir, headers_filename)
              = Some (PSeries index values) →
              files fs0 !! (outdir, model_filename) = None →
              (load joint_config_space outdir rng fs0).2
              = Raise FileNotFoundError)
         ∧ ∀ index values m,
             files fs0 !! (outdir, headers_filename)
             = Some (PSeries index values) →
             files fs0 !! (outdir, model_filename) = Some (PModel m) →
             load joint_config_space outdir rng fs0
             = (mkFS (files fs0)
                  (Read (outdir, model_filename)
                   :: Read (outdir, headers_filename)
                   :: Read (outdir, params_filename) :: trace fs0),
                Ok (mkSurrogate (p_config_space p) (p_estimators_per_output p)
                      (p_hyperparams p) None m (p_feature_headers p)
                      (Some values) true))).
Proof.
  intros Hwf. destruct (filenames_differ outdir) as (H1 & H2 & H3). split.
  - destruct (trained_ s) eqn:Ht.
    + destruct (Hwf Ht) as [lh Hlh].
      rewrite (dump_trained s outdir protocol fs lh) by done. simpl.
      split; [done|]. split.
      { rewrite !lookup_insert_ne, lookup_insert_eq by done.
        unfold params_of. by rewrite Ht. }
      split; [done|]. split; [|done]. intros _. split.
      * by rewrite lookup_insert_eq.
      * intros lh' Hlh'. rewrite Hlh in Hlh'. injection Hlh' as <-.
        by rewrite lookup_insert_ne, lookup_insert_eq by done.
    + rewrite (dump_untrained s outdir protocol fs) by done. simpl.
      split; [done|]. split.
      { rewrite lookup_insert_eq. unfold params_of. by rewrite Ht. }
      split; [done|]. split; [done|]. intros _.
      by rewrite !lookup_insert_ne by done.
  - intros fs0 p Hp. split; [|split; [|split]].
    + intros Ht. rewrite (load_untrained _ _ _ _ p) by done.
      rewrite init_default_instance. destruct p; simpl in Ht; by subst.
    + intros Hh. by apply (load_trained_needs_headers _ _ _ _ p).
    + intros index values Hh Hm.
      unfold load, io_bind, read_file, io_lift, io_ret.
      rewrite Hp. simpl. rewrite H. simpl. rewrite Hh. simpl. by rewrite Hm.
    + intros index values m Hh Hm.
      rewrite (load_trained _ _ _ _ p index values m) by done.
      rewrite init_default_instance. destruct p; simpl in H; by subst.
Qed.

Lemma dump_and_load_payloads_witness :
  files (dump Ref.fitted "out" 0 (mkFS ∅ [])).1 !! ("out", params_filename)
  = Some (PParams (mkParams 500 (Some default_hyperparams) ()
                     (Some [LStr "valid-acc"])
                     (Some [LStr "Optimizer"; LStr "epoch"]) true))
  ∧ files (dump Ref.fitted "out" 0 (mkFS ∅ [])).1 !! ("out", model_filename)
    = Some (PModel (Some 1))
  ∧ files (dump Ref.fitted "out" 0 (mkFS ∅ [])).1 !! ("out", headers_filename)
    = Some (PSeries [LStr "valid-acc"] [LStr "valid-acc"])
  ∧ trace (dump Ref.fitted "out" 0 (mkFS ∅ [])).1
    = [Wrote ("out", model_filename); Wrote ("out", headers_filename);
       Wrote ("out", params_filename)]
  ∧ trace (dump Ref.fresh "out" 0 (mkFS ∅ [])).1
    = [Wrote ("out", params_filename)]
  ∧ files (dump Ref.fresh "out" 0 (mkFS ∅ [])).1 !! ("out", model_filename)
    = None
  ∧ (load () "out" Ref.no_draws (dump Ref.fitted "out" 0 (mkFS ∅ [])).1).2
    = Ok (mkSurrogate () 500 (Some default_hyperparams) None (Some 1)
            (Some [LStr "Optimizer"; LStr "epoch"])
            (Some [LStr "valid-acc"]) true)
  ∧ (load () "out" Ref.no_draws (dump Ref.fresh "out" 0 (mkFS ∅ [])).1).2
    = Ok (mkSurrogate () 500 (Some default_hyperparams) None None None None
            false).
Proof.
  destruct (dump_and_load_payloads () Ref.fitted "out" 0 Ref.no_draws
              (mkFS ∅ []) ltac:(intros _; eexists; reflexivity))
    as [(_ & Hparams & Htrace & Htrained & _) Hload].
  destruct (Htrained eq_refl) as [Hmodel Hheaders].
  destruct (dump_and_load_payloads () Ref.fresh "out" 0 Ref.no_draws
              (mkFS ∅ []) ltac:(intros Ht; discriminate Ht))
    as [(_ & Hparams' & Htrace' & _ & Huntrained) _].
  destruct (Huntrained eq_refl) as [Hmodel' _].
  destruct (Hload (dump Ref.fitted "out" 0 (mkFS ∅ [])).1 _ Hparams)
    as [_ Hloaded].
  destruct (Hloaded eq_refl) as (_ & _ & Hloaded').
  destruct (Hload (dump Ref.fresh "out" 0 (mkFS ∅ [])).1 _ Hparams')
    as [Hfresh _].
  split; [exact Hparams|]. split; [exact Hmodel|].
  split; [exact (Hheaders [LStr "valid-acc"] eq_refl)|].
  split; [exact Htrace|]. split; [exact Htrace'|]. split; [exact Hmodel'|].
  split.
  - exact (f_equal snd (Hloaded' [LStr "valid-acc"] [LStr "valid-acc"]
                          (Some 1) eq_refl eq_refl)).
  - exact (f_equal snd (Hfresh eq_refl)).
Defined.

(** * What a call of [fit] leaves behind *)

Section FitOutcome.

Context {ConfigSpace Model : Type} (sk : SkLearn ConfigSpace Model).
Local Abbreviation Surrogate := (XGBSurrogate ConfigSpace Model).
Implicit Types (X Y : DataFrame cell) (s : Surrogate) (t : float).
Implicit Types (st hpo : bool) (k iters : Z) (rs : RandomState).
Implicit Types (strata : strata_arg) (g : option (DataFrame Z)).

Lemma pipeline_outcome multiout s :
  (_get_simple_pipeline multiout s = (s, Raise TypeError) ∧ hyperparams s = None)
  ∨ ∃ hp, hyperparams s = Some hp ∧
          _get_simple_pipeline multiout s
          = (s, Ok (mkPipeline (config_space s) 500
                      match use_gpu s with Some true => "gpu_hist" | _ => "auto" end
                      1 hp multiout)).
Proof.
  unfold _get_simple_pipeline, bind, self, lift, ret. simpl.
  destruct (hyperparams s) as [hp|]; simpl; [right; by eexists | by left].
Qed.

(** Either the call raises with the instance as it was, or the library has
    fitted a model on the training rows of a grouped split, and the instance
    holds that model and is marked trained, whatever happens afterwards. *)
Lemma fit_body_outcome X Y g hpo t rs iters k st strata s :
  (∃ e, fit_body sk X Y g hpo t rs iters k st strata s = (s, Raise e))
  ∨ ∃ G xtrain xtest ytrain ytest gtrain hp pl space m,
      g = Some G ∧
      prepare_dataset_for_training sk X Y (Some G) t rs k st strata
      = Ok (xtrain, Some xtest, ytrain, Some ytest, gtrain, GroupKFold k) ∧
      hyperparams s = Some hp ∧
      pl = mkPipeline (config_space s) 500
             match use_gpu s with Some true => "gpu_hist" | _ => "auto" end
             1 hp (bool_decide (1 < length (columns Y))%nat) ∧
      (if hpo
       then sk_search_fit sk pl space iters (GroupKFold k) rs xtrain ytrain
              (Some gtrain)
       else sk_pipeline_fit sk pl xtrain ytrain) = Ok m ∧
      (fit_body sk X Y g hpo t rs iters k st strata s).1
      = set_trained_ true (set_model (Some m) s) ∧
      ∀ scores,
        (fit_body sk X Y g hpo t rs iters k st strata s).2 = Ok scores →
        dom scores
        = {["train_r2"; "train_mse"]}
          ∪ (if (0 <? t)%float then {["test_r2"; "test_mse"]} else ∅).
Proof.
  destruct g as [G|].
  2:{ left. unfold fit_body, bind, lift.
      destruct (prepare_dataset_for_training _ _ _ _ _ _ _ _ _) eqn:E.
      - by apply prepare_without_groups_never_returns in E.
      - by eexists. }
  destruct (prepare_dataset_for_training sk X Y (Some G) t rs k st strata)
    as [r0|e] eqn:E.
  2:{ left. unfold fit_body, bind, lift. rewrite E. by eexists. }
  destruct (prepare_with_groups_inv sk _ _ _ _ _ _ _ _ _ E)
    as (y & n & tr & te & folds & xtrain & xtest & ytrain & ytest & gtrain
        & _ & _ & _ & _ & _ & _ & _ & _ & ->).
  destruct (pipeline_outcome (bool_decide (1 < length (columns Y))%nat) s)
    as [(Hpl & _)|(hp & Hhp & Hpl)].
  { left. unfold fit_body, bind, lift. rewrite E. cbn beta iota zeta.
    rewrite Hpl. by eexists. }
  set (space := (λ '(k0, v),
                   (((if bool_decide (1 < length (columns Y))%nat
                      then "multiout__" else "") +:+ "estimator")
                    +:+ "__" +:+ k0, v)) <$> _hpo_search_space).
  set (pl := mkPipeline _ _ _ _ _ _) in Hpl.
  destruct (if hpo
            then sk_search_fit sk pl space iters (GroupKFold k) rs xtrain
                   ytrain (Some gtrain)
            else sk_pipeline_fit sk pl xtrain ytrain) as [m|e] eqn:Em.
  2:{ left. unfold fit_body, bind, lift. rewrite E. cbn beta iota zeta.
      rewrite Hpl. fold space. destruct hpo; rewrite Em; by eexists. }
  right. exists G, xtrain, xtest, ytrain, ytest, gtrain, hp, pl, space, m.
  do 5 (split; [done|]).
  unfold fit_body, predict. unfold bind, lift, assign, ret, self.
  rewrite E. cbn beta iota zeta. rewrite Hpl. fold space.
  destruct hpo; rewrite Em; cbn beta iota zeta.
  all: destruct (predict_of sk _ xtrain) as [yp|]; simpl; [|by split].
  all: destruct (sk_r2_score sk ytrain yp); simpl; [|by split].
  all: destruct (sk_mean_squared_error sk ytrain yp); simpl; [|by split].
  all: destruct (0 <? t)%float; simpl.
  all: try (split; [done|]; intros scores [= <-];
            rewrite !dom_insert_L, dom_empty_L; set_solver).
  all: destruct (predict_of sk _ xtest) as [yq|]; simpl; [|by split].
  all: destruct (sk_r2_score sk ytest yq); simpl; [|by split].
  all: destruct (sk_mean_squared_error sk ytest yq); simpl; [|by split].
  all: split; [done|]; intros scores [= <-];
       rewrite !dom_insert_L, dom_empty_L; set_solver.
Qed.


Lemma record_headers_eq X Y s :
  record_headers X Y s
  = match feature_headers s, label_headers s with
    | Some _, Some _ => s
    | None, Some _ => set_feature_headers (Some (columns X)) s
    | Some _, None => set_label_headers (Some (columns Y)) s
    | None, None =>
        set_label_headers (Some (columns Y))
          (set_feature_headers (Some (columns X)) s)
    end.
Proof. by destruct s as [? ? ? ? ? [?|] [?|] ?]. Qed.

(** The first two statements of [fit]: they raise only when a stored column
    is missing from the given table, and otherwise leave the instance with
    both orders set. *)
Lemma fit_outcome X Y g hpo t rs iters k st strata s :
  (∃ e, (fit sk X Y g hpo t rs iters k st strata s).2 = Raise e ∧
        ((fit sk X Y g hpo t rs iters k st strata s).1 = s ∨
         (feature_headers s = None ∧ is_Some (label_headers s) ∧
          (fit sk X Y g hpo t rs iters k st strata s).1
          = set_feature_headers (Some (columns X)) s)))
  ∨ ∃ X' Y',
      match feature_headers s with
      | None => X' = X
      | Some fh => loc_cols X fh = Ok X'
      end ∧
      match label_headers s with
      | None => Y' = Y
      | Some lh => loc_cols Y lh = Ok Y'
      end ∧
      fit sk X Y g hpo t rs iters k st strata s
      = fit_body sk X' Y' g hpo t rs iters k st strata (record_headers X Y s).
Proof.
  rewrite record_headers_eq.
  unfold fit, fix_feature_headers, fix_label_headers, bind, self, assign, ret,
    lift. simpl.
  destruct (feature_headers s) as [fh|] eqn:Hfh; simpl.
  - destruct (loc_cols X fh) as [X'|e] eqn:EX; simpl;
      [|left; exists e; auto].
    destruct (label_headers s) as [lh|] eqn:Hlh; simpl.
    + destruct (loc_cols Y lh) as [Y'|e] eqn:EY; simpl;
        [|left; exists e; auto].
      right. by exists X', Y'.
    + right. by exists X', Y.
  - destruct (label_headers s) as [lh|] eqn:Hlh; simpl.
    + destruct (loc_cols Y lh) as [Y'|e] eqn:EY; simpl.
      * right. by exists X, Y'.
      * left. exists e. split; [done|]. right. eauto.
    + right. by exists X, Y.
Qed.

(** The attributes of an instance once [fit] has stored a model in it. *)
Lemma trained_state_attributes X Y s m s' :
  s' = set_trained_ true (set_model (Some m) (record_headers X Y s)) →
  trained_ s' = true ∧ model s' = Some m ∧
  feature_headers s' = Some (default (columns X) (feature_headers s)) ∧
  label_headers s' = Some (default (columns Y) (label_headers s)) ∧
  hyperparams s' = hyperparams s ∧ config_space s' = config_space s ∧
  estimators_per_output s' = estimators_per_output s ∧
  use_gpu s' = use_gpu s.
Proof. intros ->. by destruct s. Qed.

(** Every state a call of [fit] can end in. *)
Lemma fit_final_state X Y g hpo t rs iters k st strata s :
  ((∃ e, (fit sk X Y g hpo t rs iters k st strata s).2 = Raise e) ∧
   ((fit sk X Y g hpo t rs iters k st strata s).1 = s ∨
    (feature_headers s = None ∧ is_Some (label_headers s) ∧
     (fit sk X Y g hpo t rs iters k st strata s).1
     = set_feature_headers (Some (columns X)) s) ∨
    (fit sk X Y g hpo t rs iters k st strata s).1 = record_headers X Y s))
  ∨ ∃ m, (fit sk X Y g hpo t rs iters k st strata s).1
         = set_trained_ true (set_model (Some m) (record_headers X Y s)).
Proof.
  destruct (fit_outcome X Y g hpo t rs iters k st strata s)
    as [(e & He & Hs)|(X' & Y' & _ & _ & ->)].
  - left. split; [by exists e|]. destruct Hs as [?|?]; auto.
  - destruct (fit_body_outcome X' Y' g hpo t rs iters k st strata
                (record_headers X Y s))
      as [(e & ->)|(G & ? & ? & ? & ? & ? & ? & ? & ? & m & _ & _ & _ & _ & _
                    & Hs & _)].
    + left. split; [by exists e | auto].
    + right. by exists m.
Qed.

End FitOutcome.

(** X1. A call of [fit] that returns has gone through a grouped split: groups
    were given; the tables were re-indexed by the stored orders (or, on the
    first call, taken as they are); the model was fitted by the library on
    the training rows only, with a pipeline of 500 estimators built from
    the instance's hyperparameters; the instance then holds that model, is
    marked trained and has both column orders set (the stored ones, or the
    given tables' columns on the first call) while its other attributes are
    as before; and the scores are the train scores plus, for a positive test
    fraction, the test scores. *)
Theorem fit_returns
    {ConfigSpace Model} (sk : SkLearn ConfigSpace Model)
    (X Y : DataFrame cell) (g : option (DataFrame Z)) (hpo : bool) (t : float)
    (rs : RandomState) (iters k : Z) (st : bool) (strata : strata_arg)
    (s s' : XGBSurrogate ConfigSpace Model) (scores : gmap string float) :
  fit sk X Y g hpo t rs iters k st strata s = (s', Ok scores) →
  ∃ G X' Y' xtrain xtest ytrain ytest gtrain hp space m,
    g = Some G ∧
    match feature_headers s with
    | None => X' = X
    | Some fh => loc_cols X fh = Ok X'
    end ∧
    match label_headers s with
    | None => Y' = Y
    | Some lh => loc_cols Y lh = Ok Y'
    end ∧
    prepare_dataset_for_training sk X' Y' (Some G) t rs k st strata
    = Ok (xtrain, Some xtest, ytrain, Some ytest, gtrain, GroupKFold k) ∧
    hyperparams s = Some hp ∧
    (if hpo
     then sk_search_fit sk
            (mkPipeline (config_space s) 500
               match use_gpu s with Some true => "gpu_hist" | _ => "auto" end
               1 hp (bool_decide (1 < length (columns Y'))%nat))
            space iters (GroupKFold k) rs xtrain ytrain (Some gtrain)
     else sk_pipeline_fit sk
            (mkPipeline (config_space s) 500
               match use_gpu s with Some true => "gpu_hist" | _ => "auto" end
               1 hp (bool_decide (1 < length (columns Y'))%nat))
            xtrain ytrain) = Ok m ∧
    s' = set_trained_ true (set_model (Some m) (record_headers X Y s)) ∧
    (trained_ s' = true ∧ model s' = Some m ∧
     feature_headers s' = Some (default (columns X) (feature_headers s)) ∧
     label_headers s' = Some (default (columns Y) (label_headers s)) ∧
     hyperparams s' = hyperparams s ∧ config_space s' = config_space s ∧
     estimators_per_output s' = estimators_per_output s ∧
     use_gpu s' = use_gpu s) ∧
    dom scores
    = {["train_r2"; "train_mse"]}
      ∪ (if (0 <? t)%float then {["test_r2"; "test_mse"]} else ∅).
Proof.
  intros Hfit.
  destruct (fit_outcome sk X Y g hpo t rs iters k st strata s)
    as [(e & He & _)|(X' & Y' & HX & HY & Hbody)].
  { rewrite Hfit in He. done. }
  rewrite Hbody in Hfit.
  destruct (fit_body_outcome sk X' Y' g hpo t rs iters k st strata
              (record_headers X Y s))
    as [(e & He)|(G & xtrain & xtest & ytrain & ytest & gtrain & hp & pl
                  & space & m & -> & Hprep & Hhp & -> & Hm & Hs & Hdom)].
  { rewrite Hfit in He. done. }
  rewrite Hfit in Hs, Hdom. simpl in Hs, Hdom, Hhp, Hm.
  exists G, X', Y', xtrain, xtest, ytrain, ytest, gtrain, hp, space, m.
  do 7 (split; [done|]).
  split; [by apply (trained_state_attributes X Y s m)|]. by apply Hdom.
Qed.

Lemma fit_returns_witness :
  ∃ m, Ref.fitted
       = set_trained_ true
           (set_model (Some m) (record_headers Ref.X4 Ref.Y4 Ref.fresh)) ∧
       trained_ Ref.fitted = true ∧ model Ref.fitted = Some m ∧
       feature_headers Ref.fitted = Some [LStr "Optimizer"; LStr "epoch"] ∧
       label_headers Ref.fitted = Some [LStr "valid-acc"].
Proof.
  destruct (fit_returns Ref.sklearn Ref.X4 Ref.Y4 (Some Ref.G4) true 0.5 None
              10 5 false StrataNone Ref.fresh Ref.fitted
              (<["test_mse" := 0%float]> (<["test_r2" := 1%float]>
                (<["train_r2" := 1%float]> (<["train_mse" := 0%float]> ∅))))
              eq_refl)
    as (_ & _ & _ & _ & _ & _ & _ & _ & _ & _ & m & _ & _ & _ & _ & _ & _
        & Hs & (Ht & Hm & Hfh & Hlh & _) & _).
  exists m. split; [exact Hs|]. split; [exact Ht|]. split; [exact Hm|].
  split; [exact Hfh | exact Hlh].
Defined.



(** The second case happens: when scoring fails, the call raises and the
    instance is trained all the same. *)
Example fit_raises_after_training :
  (fit RefMore.sklearn_failing_score Ref.X4 Ref.Y4 (Some Ref.G4) false 0.5
     None 10 5 false StrataNone Ref.fresh).2
  = Raise (ValueError "Input contains NaN.")
  ∧ trained_ (fit RefMore.sklearn_failing_score Ref.X4 Ref.Y4 (Some Ref.G4)
                false 0.5 None 10 5 false StrataNone Ref.fresh).1 = true.
Proof. split; reflexivity. Qed.

(** X3. Whatever its outcome, a call of [fit] leaves [config_space],
    [estimators_per_output], [hyperparams] and [use_gpu] as they were: the
    hyperparameters a search finds are not stored on the instance. *)
Theorem fit_keeps_configuration
    {ConfigSpace Model} (sk : SkLearn ConfigSpace Model)
    (X Y : DataFrame cell) (g : option (DataFrame Z)) (hpo : bool) (t : float)
    (rs : RandomState) (iters k : Z) (st : bool) (strata : strata_arg)
    (s : XGBSurrogate ConfigSpace Model) :
  config_space (fit sk X Y g hpo t rs iters k st strata s).1 = config_space s ∧
  estimators_per_output (fit sk X Y g hpo t rs iters k st strata s).1
  = estimators_per_output s ∧
  hyperparams (fit sk X Y g hpo t rs iters k st strata s).1 = hyperparams s ∧
  use_gpu (fit sk X Y g hpo t rs iters k st strata s).1 = use_gpu s.
Proof.
  destruct (fit_final_state sk X Y g hpo t rs iters k st strata s)
    as [[_ [->|[(_ & _ & ->)| ->]]]|[m ->]]; done.
Qed.

(** * Instances the methods produce *)

Section ReachableFacts.

Context {ConfigSpace Model : Type} (sk : SkLearn ConfigSpace Model).
Context (joint_config_space : ConfigSpace).
Local Abbreviation Surrogate := (XGBSurrogate ConfigSpace Model).
Implicit Types (s : Surrogate) (outdir : string) (rng : NumpyDraws).

Lemma set_random_hyperparams_state rng s :
  (set_random_hyperparams rng s).1
  = match hyperparams s with
    | None => set_hyperparams (Some default_hyperparams) s
    | Some _ => s
    end.
Proof.
  unfold set_random_hyperparams, bind, self, lift, ret, assign. simpl.
  destruct (hyperparams s); simpl; [|done].
  by rewrite random_hyperparams_raises.
Qed.

Lemma load_after_dump_untrained s outdir protocol rng
    (fs : FS ConfigSpace Model) :
  trained_ s = false →
  (load joint_config_space outdir rng (dump s outdir protocol fs).1).2
  = Ok (mkSurrogate (config_space s) (estimators_per_output s) (hyperparams s)
          None None (feature_headers s) (label_headers s) false).
Proof.
  intros Ht. rewrite (dump_untrained s outdir protocol fs) by done.
  erewrite (load_untrained joint_config_space outdir rng _ (params_of s));
    simpl.
  - cbv [set_model set_label_headers restore_params set_trained_
           set_feature_headers set_config_space set_hyperparams
           set_estimators_per_output params_of init_default init
           set_random_hyperparams bind self ret assign lift
           config_space estimators_per_output hyperparams use_gpu model
           feature_headers label_headers trained_
           p_estimators_per_output p_hyperparams p_config_space
           p_label_headers p_feature_headers p_trained_ fst snd].
    destruct s; simpl in Ht; by subst.
  - by rewrite lookup_insert_eq.
  - done.
Qed.

Lemma sound_record_headers X Y s : sound s → sound (record_headers X Y s).
Proof.
  intros (Hhp & Hh & Hm & Ht). unfold sound. simpl.
  split; [done|]. split; [split; intros _; by eexists|].
  split; [done|]. intros _. by eexists.
Qed.

Lemma reachable_sound s : reachable sk joint_config_space s → sound s.
Proof.
  induction 1 as [cs n gpu rng|rng s _ IH
                  |X Y g hpo t rs iters k st strata s _ IH
                  |outdir protocol rng fs s s' _ IH Hload].
  - unfold sound. simpl. split; [done|]. split; [done|].
    split; [|done]. split; [done | by intros [? ?]].
  - rewrite set_random_hyperparams_state.
    destruct IH as (Hhp & ?). by rewrite Hhp.
  - destruct (fit_final_state sk X Y g hpo t rs iters k st strata s)
      as [[_ [->|[(Hfh & Hlh & _)| ->]]]|[m ->]].
    + done.
    + destruct IH as (_ & Hh & _). apply Hh in Hlh. rewrite Hfh in Hlh.
      by destruct Hlh.
    + by apply sound_record_headers.
    + destruct (sound_record_headers X Y s IH) as (Hhp & Hh & Hm & Ht).
      unfold sound. simpl in *. split; [done|]. split; [done|].
      split; [|by intros _]. split; intros _; [by eexists | done].
  - destruct IH as (Hhp & Hh & Hm & Ht).
    destruct (trained_ s) eqn:Etr.
    + destruct (Ht eq_refl) as [fh Hfh].
      destruct (proj1 Hh (Ht eq_refl)) as [lh Hlh].
      rewrite (load_after_dump_trained joint_config_space s outdir protocol
                 rng fs lh) in Hload by done.
      injection Hload as <-. unfold sound. simpl.
      split; [done|]. split; [split; intros _; by eexists|].
      split; [by rewrite <- Hm | intros _; by eexists].
    + rewrite (load_after_dump_untrained s outdir protocol rng fs) in Hload
        by done.
      injection Hload as <-. unfold sound. simpl.
      split; [done|]. split; [done|].
      split; [|done]. split; [done | by intros [? ?]].
Qed.

End ReachableFacts.

(** X4. On every instance the methods produce, the hyperparameters are the
    default ones: [set_random_hyperparams] raises [NameError] without
    storing anything and [fit] never assigns them, so every pipeline is
    built from the defaults.  The two column orders are set together, and
    the instance is marked trained exactly when it holds a model. *)
Theorem reachable_instances_keep_defaults
    {ConfigSpace Model} (sk : SkLearn ConfigSpace Model)
    (joint_config_space : ConfigSpace) (s : XGBSurrogate ConfigSpace Model) :
  reachable sk joint_config_space s →
  hyperparams s = Some default_hyperparams ∧
  (∀ rng, set_random_hyperparams rng s = (s, Raise (NameError "loguniform"))) ∧
  (∀ multiout,
     _get_simple_pipeline multiout s
     = (s, Ok (mkPipeline (config_space s) 500
                 match use_gpu s with Some true => "gpu_hist" | _ => "auto" end
                 1 default_hyperparams multiout))) ∧
  (is_Some (feature_headers s) ↔ is_Some (label_headers s)) ∧
  (trained_ s = true ↔ is_Some (model s)) ∧
  (trained_ s = true → is_Some (feature_headers s)).
Proof.
  intros (Hhp & Hh & Hm & Ht)%reachable_sound.
  split; [done|]. split; [|split; [|done]].
  - intros rng. unfold set_random_hyperparams, bind, self, lift. simpl.
    rewrite Hhp. simpl. by rewrite random_hyperparams_raises.
  - intros multiout.
    destruct (pipeline_outcome multiout s) as [[_ Hn]|(hp & Hhp' & ->)];
      congruence.
Qed.

Lemma reachable_instances_keep_defaults_witness :
  hyperparams Ref.fitted = Some default_hyperparams ∧
  (trained_ Ref.fitted = true ↔ is_Some (model Ref.fitted)).
Proof.
  destruct (reachable_instances_keep_defaults Ref.sklearn () Ref.fitted
              (reach_fit Ref.sklearn () Ref.X4 Ref.Y4 (Some Ref.G4) true 0.5
                 None 10 5 false StrataNone _
                 (reach_init Ref.sklearn () () 500 None Ref.no_draws)))
    as (Hhp & _ & _ & _ & Hm & _).
  split; [exact Hhp | exact Hm].
Defined.

(** X5. On an instance the methods produce, [predict] before training never
    returns, and [predict] after training goes wrong only through the
    input table (a stored feature column is missing), the model's own
    [predict], or the shape of what the model returns: the stored orders and
    the model are there. *)
Theorem predict_on_reachable
    {ConfigSpace Model} (sk : SkLearn ConfigSpace Model)
    (joint_config_space : ConfigSpace) (s : XGBSurrogate ConfigSpace Model) :
  reachable sk joint_config_space s →
  (trained_ s = false → ∀ X, ∃ e, predict_of sk s X = Raise e) ∧
  (trained_ s = true →
   ∃ fh lh m,
     feature_headers s = Some fh ∧ label_headers s = Some lh ∧
     model s = Some m ∧
     ∀ X, predict_of sk s X
          = (X' ← loc_cols X fh; arr ← sk_predict sk m X';
             if decide (length lh = width arr)
             then Ok (mkDataFrame lh (cells arr))
             else Raise (ValueError "Shape of passed values"))).
Proof.
  intros (Hhp & Hh & Hm & Ht)%reachable_sound. split.
  - intros Hf X. unfold predict_of.
    destruct (feature_headers s) as [fh|]; simpl; [|by eexists].
    destruct (loc_cols X fh); simpl; [|by eexists].
    destruct (model s) as [m|] eqn:Em; simpl; [|by eexists].
    assert (trained_ s = true) by (apply Hm; by eexists). congruence.
  - intros Htr. destruct (Ht Htr) as [fh Hfh].
    destruct (proj1 Hh (Ht Htr)) as [lh Hlh].
    destruct (proj1 Hm Htr) as [m Hmo].
    exists fh, lh, m. do 3 (split; [done|]).
    intros X. unfold predict_of. rewrite Hfh, Hmo, Hlh. simpl.
    by destruct (loc_cols X fh).
Qed.

Lemma predict_on_reachable_witness :
  trained_ Ref.fresh = false ∧
  ∀ X, ∃ e, predict_of Ref.sklearn Ref.fresh X = Raise e.
Proof.
  split; [reflexivity|].
  apply (predict_on_reachable Ref.sklearn () Ref.fresh
           (reach_init Ref.sklearn () () 500 None Ref.no_draws)).
  reflexivity.
Defined.

(** * More on [dump] and [load] *)

Section MorePersistence.

Context {ConfigSpace Model : Type}.
Context (joint_config_space : ConfigSpace).
Local Abbreviation Surrogate := (XGBSurrogate ConfigSpace Model).
Local Abbreviation Files := (FS ConfigSpace Model).
Implicit Types (s : Surrogate) (fs : Files) (outdir : string) (rng : NumpyDraws).

(** [load] writes nothing. *)
Lemma load_keeps_files outdir rng fs :
  files (load joint_config_space outdir rng fs).1 = files fs.
Proof.
  unfold load, io_bind, read_file, io_lift, io_ret.
  rewrite init_default_instance.
  destruct (files fs !! (outdir, params_filename)) as [[p|? ?|?]|];
    cbn -[default_hyperparams]; try done.
  destruct (p_trained_ p); cbn -[default_hyperparams]; [|done].
  destruct (files fs !! (outdir, headers_filename)) as [[?|? ?|?]|];
    cbn -[default_hyperparams]; try done.
  destruct (files fs !! (outdir, model_filename)) as [[?|? ?|?]|];
    cbn -[default_hyperparams]; done.
Qed.

End MorePersistence.

(** X6. [dump] followed by [load] gives back the instance up to two
    attributes that are not persisted: [use_gpu] comes back as [None], and
    the model comes back only when the instance is trained.  What the
    directory held before does not matter, and [load] changes no file. *)
Theorem dump_load_round_trip
    {ConfigSpace Model} (joint_config_space : ConfigSpace)
    (s : XGBSurrogate ConfigSpace Model) (outdir : string) (protocol : Z)
    (rng : NumpyDraws) (fs : FS ConfigSpace Model) :
  well_formed s →
  (load joint_config_space outdir rng (dump s outdir protocol fs).1).2
  = Ok (mkSurrogate (config_space s) (estimators_per_output s) (hyperparams s)
          None (if trained_ s then model s else None) (feature_headers s)
          (label_headers s) (trained_ s))
  ∧ files (load joint_config_space outdir rng (dump s outdir protocol fs).1).1
    = files (dump s outdir protocol fs).1.
Proof.
  intros Hwf. split; [|apply load_keeps_files].
  destruct (trained_ s) eqn:Ht.
  - destruct (Hwf Ht) as [lh Hlh]. rewrite Hlh.
    by apply load_after_dump_trained.
  - by apply load_after_dump_untrained.
Qed.

Lemma dump_load_round_trip_witness :
  (load () "out" Ref.no_draws
     (dump Ref.fitted "out" 0
        (dump Ref.fresh "elsewhere" 0 (mkFS ∅ [])).1).1).2
  = Ok (mkSurrogate (config_space Ref.fitted)
          (estimators_per_output Ref.fitted) (hyperparams Ref.fitted) None
          (model Ref.fitted) (feature_headers Ref.fitted)
          (label_headers Ref.fitted) true).
Proof.
  apply (dump_load_round_trip () Ref.fitted "out" 0 Ref.no_draws
           (dump Ref.fresh "elsewhere" 0 (mkFS ∅ [])).1).
  intros _. eexists. reflexivity.
Defined.

(** X7. [dump] changes no file but its own: every other path holds what it
    held, and when the instance is not trained the label-column and model
    files of the directory are left as they were (a model saved there
    earlier stays on disk). *)
Theorem dump_touches_only_its_files
    {ConfigSpace Model} (s : XGBSurrogate ConfigSpace Model)
    (outdir : string) (protocol : Z) (fs : FS ConfigSpace Model)
    (f : string * string) :
  f ≠ (outdir, params_filename) →
  (trained_ s = true →
   f ≠ (outdir, headers_filename) ∧ f ≠ (outdir, model_filename)) →
  files (dump s outdir protocol fs).1 !! f = files fs !! f.
Proof.
  intros Hp Hother. unfold dump, io_bind, write_file, io_lift, io_ret. simpl.
  destruct (trained_ s); simpl.
  - destruct (Hother eq_refl) as [Hh Hm].
    destruct (label_headers s); simpl.
    + by rewrite !lookup_insert_ne by done.
    + by rewrite lookup_insert_ne by done.
  - by rewrite lookup_insert_ne by done.
Qed.

Lemma dump_touches_only_its_files_witness :
  files (dump Ref.fresh "out" 0 (dump Ref.fitted "out" 0 (mkFS ∅ [])).1).1
    !! ("out", model_filename)
  = Some (PModel (model Ref.fitted)).
Proof.
  rewrite (dump_touches_only_its_files Ref.fresh "out" 0
             (dump Ref.fitted "out" 0 (mkFS ∅ [])).1 ("out", model_filename)).
  - reflexivity.
  - discriminate.
  - intros Ht. discriminate Ht.
Defined.

(** X8. [load] raises [FileNotFoundError] when the parameter file is
    missing (nothing is read then), and when the restored flag says trained
    and the label-column file or the model file is missing. *)
Theorem load_missing_file
    {ConfigSpace Model} (joint_config_space : ConfigSpace) (outdir : string)
    (rng : NumpyDraws) (fs : FS ConfigSpace Model) :
  files fs !! (outdir, params_filename) = None
  ∨ (∃ p, files fs !! (outdir, params_filename) = Some (PParams p) ∧
          p_trained_ p = true ∧
          (files fs !! (outdir, headers_filename) = None ∨
           ∃ index values,
             files fs !! (outdir, headers_filename)
             = Some (PSeries index values) ∧
             files fs !! (outdir, model_filename) = None)) →
  (load joint_config_space outdir rng fs).2 = Raise FileNotFoundError ∧
  (files fs !! (outdir, params_filename) = None →
   load joint_config_space outdir rng fs = (fs, Raise FileNotFoundError)).
Proof.
  intros H. split.
  - unfold load, io_bind, read_file, io_lift, io_ret.
    destruct H as [->|(p & -> & Ht & H)]; [done|]. simpl. rewrite Ht. simpl.
    destruct H as [Hh|(index & values & Hh & Hmo)]; rewrite Hh; simpl;
      [done | by rewrite Hmo].
  - intros Hp. unfold load, io_bind, read_file. by rewrite Hp.
Qed.

Lemma load_missing_file_witness :
  load () "nowhere" Ref.no_draws (mkFS ∅ [] : FS unit nat)
  = (mkFS ∅ [], Raise FileNotFoundError).
Proof.
  apply (load_missing_file () "nowhere" Ref.no_draws (mkFS ∅ [])).
  - left. reflexivity.
  - reflexivity.
Defined.

(** * More on [prepare_dataset_for_training] *)

Section MorePrepare.

Context {ConfigSpace Model : Type} (sk : SkLearn ConfigSpace Model).

Lemma iloc_shape {A} (df a : DataFrame A) idx :
  iloc df idx = Ok a →
  columns a = columns df ∧ length (rows a) = length idx.
Proof.
  intros [Hc HF]%iloc_Ok. split; [done|].
  symmetry. by eapply Forall2_length.
Qed.

End MorePrepare.

(** X9. The call returns only on one path: groups are given and the test
    fraction passes the range check and is not zero.  What it returns then
    is a test table for features and for labels (never [None]), a grouped
    K-fold with the requested number of splits, and training features,
    labels and groups that were selected by the same row positions: they
    have the input's columns and one common number of rows.  The requested
    number of splits was at least two. *)
Theorem prepare_returns_only_with_groups
    {ConfigSpace Model} (sk : SkLearn ConfigSpace Model)
    (X Y : DataFrame cell) (g : option (DataFrame Z)) (t : float)
    (rs : RandomState) (k : Z) (st : bool) (strata : strata_arg)
    (xtrain ytrain : DataFrame cell) (xtest ytest : option (DataFrame cell))
    (gtrain : DataFrame Z) (cv : splitter) :
  prepare_dataset_for_training sk X Y g t rs k st strata
  = Ok (xtrain, xtest, ytrain, ytest, gtrain, cv) →
  ∃ G xte yte,
    g = Some G ∧ test_size_rejected t = false ∧ (t =? 0)%float = false ∧
    xtest = Some xte ∧ ytest = Some yte ∧ cv = GroupKFold k ∧
    columns xtrain = columns X ∧ columns xte = columns X ∧
    columns ytrain = columns Y ∧ columns yte = columns Y ∧
    columns gtrain = columns G ∧
    length (rows ytrain) = length (rows xtrain) ∧
    length (rows gtrain) = length (rows xtrain) ∧
    length (rows yte) = length (rows xte) ∧
    (2 ≤ k)%Z.
Proof.
  intros H. destruct g as [G|];
    [|by apply prepare_without_groups_never_returns in H].
  pose proof (prepare_returns_n_splits sk _ _ _ _ _ _ _ _ _ H) as Hk.
  assert (test_size_rejected t = false ∧ (t =? 0)%float = false) as [Hrej Hz].
  { revert H. unfold prepare_dataset_for_training, prepare_locals.
    destruct (test_size_rejected t); [done|].
    destruct (t =? 0)%float; [|done].
    by destruct (new_GroupKFold k). }
  destruct (prepare_with_groups_inv sk _ _ _ _ _ _ _ _ _ H)
    as (y & n & tr & te & folds & xtr & xte & ytr & yte & gtr & _ & _ & _
        & [? ?]%iloc_shape & [? ?]%iloc_shape & [? ?]%iloc_shape
        & [? ?]%iloc_shape & [? ?]%iloc_shape & Hr).
  simplify_eq. exists G, xte, yte. repeat (split; [done|]).
  repeat split; [congruence..|done].
Qed.

Lemma prepare_returns_only_with_groups_witness :
  ∃ G xte yte,
    Some Ref.G4 = Some G ∧ test_size_rejected 0.5 = false ∧
    (0.5 =? 0)%float = false ∧
    Some (mkDataFrame (columns Ref.X4)
            [[CStr "SGD"; CInt 1]; [CStr "SGD"; CInt 2]]) = Some xte ∧
    Some (mkDataFrame (columns Ref.Y4) [[CFloat 0.25]; [CFloat 0.5]])
    = Some yte.
Proof.
  destruct (prepare_returns_only_with_groups Ref.sklearn Ref.X4 Ref.Y4
              (Some Ref.G4) 0.5 None 5 false StrataNone
              (mkDataFrame (columns Ref.X4)
                 [[CStr "Adam"; CInt 1]; [CStr "Adam"; CInt 2]])
              (mkDataFrame (columns Ref.Y4) [[CFloat 0.125]; [CFloat 0.75]])
              (Some (mkDataFrame (columns Ref.X4)
                       [[CStr "SGD"; CInt 1]; [CStr "SGD"; CInt 2]]))
              (Some (mkDataFrame (columns Ref.Y4)
                       [[CFloat 0.25]; [CFloat 0.5]]))
              (mkDataFrame (columns Ref.G4) [[2%Z]; [2%Z]])
              (GroupKFold 5) eq_refl)
    as (G & xte & yte & H1 & H2 & H3 & H4 & H5 & _).
  exists G, xte, yte. repeat split; assumption.
Defined.

(** X10. With groups, whenever the call returns, the training and test
    features hold every input row exactly once, so their row counts add up
    to the input's; the same holds of the labels when the label table has
    as many rows as the feature table (under the library's contract that
    the index arrays of a split partition the row positions). *)
Theorem prepare_partitions_the_rows
    {ConfigSpace Model} (sk : SkLearn ConfigSpace Model)
    (X Y : DataFrame cell) (G : DataFrame Z) (t : float) (rs : RandomState)
    (k : Z) (st : bool) (strata : strata_arg)
    (xtrain xtest ytrain ytest : DataFrame cell) (gtrain : DataFrame Z)
    (cv : splitter) :
  sk_contract sk →
  prepare_dataset_for_training sk X Y (Some G) t rs k st strata
  = Ok (xtrain, Some xtest, ytrain, Some ytest, gtrain, cv) →
  rows xtrain ++ rows xtest ≡ₚ rows X ∧
  (length (rows xtrain) + length (rows xtest) = length (rows X))%nat ∧
  (length (rows Y) = length (rows X) →
   rows ytrain ++ rows ytest ≡ₚ rows Y ∧
   (length (rows ytrain) + length (rows ytest) = length (rows Y))%nat).
Proof.
  intros Hsk H.
  destruct (prepare_with_groups_partition sk _ _ _ _ _ _ _ _ _ _ _ _ _ _
              Hsk H) as [HX HY].
  split; [done|]. split.
  - apply Permutation_length in HX. by rewrite length_app in HX.
  - intros Hlen. specialize (HY Hlen). split; [done|].
    apply Permutation_length in HY. by rewrite length_app in HY.
Qed.

Lemma prepare_partitions_the_rows_witness :
  [[CStr "Adam"; CInt 1]; [CStr "Adam"; CInt 2]]
    ++ [[CStr "SGD"; CInt 1]; [CStr "SGD"; CInt 2]]
  ≡ₚ rows Ref.X4.
Proof.
  apply (prepare_partitions_the_rows Ref.sklearn Ref.X4 Ref.Y4 Ref.G4 0.5
           None 5 false StrataNone
           (mkDataFrame (columns Ref.X4)
              [[CStr "Adam"; CInt 1]; [CStr "Adam"; CInt 2]])
           (mkDataFrame (columns Ref.X4)
              [[CStr "SGD"; CInt 1]; [CStr "SGD"; CInt 2]])
           (mkDataFrame (columns Ref.Y4) [[CFloat 0.125]; [CFloat 0.75]])
           (mkDataFrame (columns Ref.Y4) [[CFloat 0.25]; [CFloat 0.5]])
           (mkDataFrame (columns Ref.G4) [[2%Z]; [2%Z]])
           (GroupKFold 5) ref_contract eq_refl).
Defined.

(** X11. With groups, the test fraction reaches the library only as
    [n_splits = int(1 / test_size)]: it is not passed on as a test size.
    Two test fractions that pass the checks and give the same [n_splits]
    give the same outcome, whatever the data. *)
Theorem test_size_matters_only_through_n_splits
    {ConfigSpace Model} (sk : SkLearn ConfigSpace Model)
    (X Y : DataFrame cell) (G : DataFrame Z) (t1 t2 : float)
    (rs : RandomState) (k : Z) (st : bool) (strata : strata_arg) :
  test_size_rejected t1 = false → (t1 =? 0)%float = false →
  test_size_rejected t2 = false → (t2 =? 0)%float = false →
  py_truediv 1 t1 ≫= py_int = py_truediv 1 t2 ≫= py_int →
  prepare_dataset_for_training sk X Y (Some G) t1 rs k st strata
  = prepare_dataset_for_training sk X Y (Some G) t2 rs k st strata.
Proof.
  intros Hr1 Hz1 Hr2 Hz2 Hn.
  unfold prepare_dataset_for_training, prepare_locals.
  rewrite Hr1, Hz1, Hr2, Hz2. simpl.
  destruct (resolve_strata Y strata); simpl; [|done]. by rewrite Hn.
Qed.

Lemma test_size_matters_only_through_n_splits_witness :
  py_truediv 1 0.5 ≫= py_int = Ok 2%Z ∧
  py_truediv 1 0.375 ≫= py_int = Ok 2%Z ∧
  prepare_dataset_for_training Ref.sklearn Ref.X4 Ref.Y4 (Some Ref.G4) 0.5
    None 5 false StrataNone
  = prepare_dataset_for_training Ref.sklearn Ref.X4 Ref.Y4 (Some Ref.G4) 0.375
      None 5 false StrataNone.
Proof.
  split; [reflexivity|]. split; [reflexivity|].
  apply (test_size_matters_only_through_n_splits Ref.sklearn Ref.X4 Ref.Y4
           Ref.G4 0.5 0.375 None 5 false StrataNone);
    reflexivity.
Defined.

(** X12. For a test fraction that passes the checks and is not zero, the
    strata are looked up before anything is split, whether or not
    [stratify] is set and whether or not groups are given: a label table
    without columns raises [IndexError] when no strata are named, and a
    strata column that the label table does not have raises [KeyError]. *)
Theorem strata_are_always_resolved
    {ConfigSpace Model} (sk : SkLearn ConfigSpace Model)
    (X Y : DataFrame cell) (g : option (DataFrame Z)) (t : float)
    (rs : RandomState) (k : Z) (st : bool) :
  test_size_rejected t = false → (t =? 0)%float = false →
  (columns Y = [] →
   prepare_dataset_for_training sk X Y g t rs k st StrataNone
   = Raise IndexError)
  ∧ (∀ name, LStr name ∉ columns Y →
     prepare_dataset_for_training sk X Y g t rs k st (StrataColumn name)
     = Raise KeyError).
Proof.
  intros Hrej Hz. split.
  - intros HY. unfold prepare_dataset_for_training, prepare_locals.
    rewrite Hrej, Hz. simpl. by rewrite HY.
  - intros name Hname.
    unfold prepare_dataset_for_training, prepare_locals.
    rewrite Hrej, Hz. simpl. unfold loc_col, positions.
    by rewrite positions_from_absent.
Qed.

Lemma strata_are_always_resolved_witness :
  prepare_dataset_for_training Ref.sklearn Ref.X4 Ref.Y4 (Some Ref.G4) 0.5
    None 5 false (StrataColumn "test-acc")
  = Raise KeyError.
Proof.
  apply (strata_are_always_resolved Ref.sklearn Ref.X4 Ref.Y4 (Some Ref.G4)
           0.5 None 5 false eq_refl eq_refl).
  intros H. apply list_elem_of_singleton in H. discriminate H.
Defined.

(** * [_random_data] *)

Section ArrayFacts.

Context {A : Type}.
Implicit Types (a : list A) (k n i : nat).

Lemma length_np_repeat a k : length (np_repeat a k) = length a * k.
Proof.
  unfold np_repeat. induction a as [|x a IH]; csimpl; [done|].
  rewrite length_app, length_replicate, IH. lia.
Qed.

Lemma lookup_np_repeat a k i :
  i < length a * k → np_repeat a k !! i = a !! (i / k).
Proof.
  unfold np_repeat. revert i. induction a as [|x a IH]; intros i Hi; csimpl.
  { simpl in Hi. lia. }
  assert (0 < k) by (destruct k; simpl in Hi; lia).
  destruct (decide (i < k)) as [Hlt|Hge].
  - rewrite lookup_app_l by (by rewrite length_replicate).
    rewrite lookup_replicate_2 by done. by rewrite Nat.div_small.
  - rewrite lookup_app_r by (rewrite length_replicate; lia).
    rewrite length_replicate, IH by (simpl in Hi; lia).
    replace (i / k) with (S ((i - k) / k)); [done|].
    replace i with ((i - k) + 1 * k) at 2 by lia.
    rewrite Nat.div_add by lia. lia.
Qed.

Lemma length_np_tile a n : length (np_tile a n) = n * length a.
Proof.
  unfold np_tile. induction n as [|n IH]; csimpl; [done|].
  by rewrite length_app, IH.
Qed.

Lemma lookup_np_tile a n i :
  i < n * length a → np_tile a n !! i = a !! (i mod length a).
Proof.
  unfold np_tile. revert i. induction n as [|n IH]; intros i Hi; csimpl.
  { lia. }
  assert (0 < length a) by (destruct a; simpl in *; lia).
  destruct (decide (i < length a)) as [Hlt|Hge].
  - rewrite lookup_app_l by done. by rewrite Nat.mod_small.
  - rewrite lookup_app_r by lia. rewrite IH by (simpl in Hi; lia).
    f_equal. replace i with ((i - length a) + 1 * length a) at 2 by lia.
    by rewrite Nat.Div0.mod_add.
Qed.

End ArrayFacts.

Lemma lookup_np_arange_from_1 n j :
  j < n → np_arange_from_1 n !! j = Some (Z.of_nat (1 + j)).
Proof.
  intros Hj. unfold np_arange_from_1.
  by rewrite list_lookup_fmap, lookup_seq_lt.
Qed.

Lemma length_np_arange_from_1 n : length (np_arange_from_1 n) = n.
Proof. unfold np_arange_from_1. by rewrite length_fmap, length_seq. Qed.

Lemma length_set_column df name series :
  length (rows (set_column df name series)) = length (rows df).
Proof.
  unfold set_column.
  destruct (positions name (columns df)); simpl;
    rewrite length_zip_with, length_fmap, length_seq; lia.
Qed.

(** Appending a column that is not there yet. *)
Lemma set_column_new df name series i r :
  name ∉ columns df → rows df !! i = Some r →
  columns (set_column df name series) = columns df ++ [name] ∧
  rows (set_column df name series) !! i
  = Some (r ++ [default (CFloat nan) (series !! i)]).
Proof.
  intros Hname Hr. unfold set_column, positions.
  rewrite positions_from_absent by done. simpl. split; [done|].
  rewrite lookup_zip_with, Hr. simpl.
  rewrite list_lookup_fmap, lookup_seq_lt; [done|].
  by apply lookup_lt_is_Some_1; eexists.
Qed.

Section RandomDataFacts.

Context {ConfigSpace Model : Type} (lib : ConfigSpaceLib ConfigSpace).
Implicit Types (s : XGBSurrogate ConfigSpace Model) (rs : RandomState).
Implicit Types (names : option (list label)) (arr : ndarray).

Lemma pd_DataFrame_Some_Ok (a : ndarray) cs df :
  pd_DataFrame a (Some cs) = Ok df ↔
  length cs = width a ∧ df = mkDataFrame cs (cells a).
Proof.
  unfold pd_DataFrame. case_decide.
  - split; [by intros [= <-] | by intros [_ ->]].
  - split; [done | by intros [? _]].
Qed.

(** What a call that returns has computed. *)
Lemma random_data_inv s nconfigs spc d names rs F L G :
  _random_data lib s nconfigs spc d names rs = Ok (F, L, G) →
  ∃ arr,
    cs_sample_values lib (config_space s) rs nconfigs = Ok arr ∧
    length (cs_hyperparameter_names lib (config_space s)) = width arr ∧
    F = set_column
          (mkDataFrame (LStr <$> cs_hyperparameter_names lib (config_space s))
             (np_repeat (cells arr) spc))
          (LStr "epoch")
          (CInt <$> np_tile (np_arange_from_1 spc) nconfigs) ∧
    length (default ((λ i, LStr ("Label_" +:+ pretty i)) <$> seq 0 d) names)
    = d ∧
    L = mkDataFrame
          (default ((λ i, LStr ("Label_" +:+ pretty i)) <$> seq 0 d) names)
          (cells (random_array lib rs (nconfigs * spc) d)) ∧
    G = mkDataFrame [LStr "ModelIndex"]
          ((λ g, [g]) <$> np_repeat (np_arange_from_1 nconfigs) spc).
Proof.
  unfold _random_data.
  destruct (cs_sample_values lib (config_space s) rs nconfigs) as [arr|];
    [|done].
  cbn [mbind result_bind pd_DataFrame width cells].
  destruct (decide (length (LStr <$> _) = width arr)) as [HF|];
    cbn [mbind result_bind]; [|done].
  rewrite length_fmap in HF.
  destruct (decide (length _ = width _)) as [HL|];
    cbn [mbind result_bind]; [|done].
  intros [= <- <- <-]. exists arr. split; [done|]. split; [done|].
  split; [done|]. destruct names; by repeat split.
Qed.

End RandomDataFacts.

(** X13. When [_random_data] returns and the configuration space has
    handed out [nconfigs] configurations, the feature, label and group
    tables all have [nconfigs * samples_per_config] rows, every label row
    has [nlabel_dims] cells, the group table has the single column
    [ModelIndex], and the label columns are the given names or, by default,
    [Label_0], [Label_1], ... *)
Theorem random_data_shapes
    {ConfigSpace Model} (lib : ConfigSpaceLib ConfigSpace)
    (s : XGBSurrogate ConfigSpace Model) (nconfigs spc d : nat)
    (names : option (list label)) (rs : RandomState)
    (F L : DataFrame cell) (G : DataFrame Z) (arr : ndarray) :
  _random_data lib s nconfigs spc d names rs = Ok (F, L, G) →
  cs_sample_values lib (config_space s) rs nconfigs = Ok arr →
  length (cells arr) = nconfigs →
  length (rows F) = nconfigs * spc ∧
  length (rows L) = nconfigs * spc ∧
  length (rows G) = nconfigs * spc ∧
  Forall (λ r, length r = d) (rows L) ∧
  length (columns L) = d ∧
  columns L
  = default ((λ i, LStr ("Label_" +:+ pretty i)) <$> seq 0 d) names ∧
  columns G = [LStr "ModelIndex"].
Proof.
  intros (arr' & Harr & _ & -> & Hd & -> & ->)%random_data_inv Hs Hn.
  assert (arr' = arr) as -> by congruence.
  rewrite length_set_column. simpl.
  rewrite length_np_repeat, Hn, !length_fmap, length_seq, length_np_repeat,
    length_np_arange_from_1.
  repeat (split; [done|]). split; [|done].
  apply Forall_fmap, Forall_forall. intros i _. simpl.
  by rewrite length_fmap, length_seq.
Qed.

Lemma random_data_shapes_witness :
  ∃ F L G,
    _random_data RefMore.lib Ref.fresh 3 2 2 None None = Ok (F, L, G) ∧
    length (rows F) = 6 ∧ length (rows L) = 6 ∧ length (rows G) = 6 ∧
    columns L = [LStr "Label_0"; LStr "Label_1"].
Proof.
  eexists _, _, _. split; [reflexivity|].
  destruct (random_data_shapes RefMore.lib Ref.fresh 3 2 2 None None _ _ _
              (mkArray 2 (replicate 3 [CStr "SGD"; CFloat 0.5]))
              eq_refl eq_refl eq_refl)
    as (HF & HL & HG & _ & _ & Hc & _).
  repeat split; assumption.
Defined.

(** X14. When [epoch] is not the name of a hyperparameter, the feature
    table has the hyperparameter columns followed by an [epoch] column, and
    row [i] is sampled configuration number [i / samples_per_config]
    followed by the epoch [1 + i mod samples_per_config], while row [i] of
    the group table is [1 + i / samples_per_config]: the rows of a group
    are the epochs [1 .. samples_per_config] of one configuration. *)
Theorem random_data_rows
    {ConfigSpace Model} (lib : ConfigSpaceLib ConfigSpace)
    (s : XGBSurrogate ConfigSpace Model) (nconfigs spc d : nat)
    (names : option (list label)) (rs : RandomState)
    (F L : DataFrame cell) (G : DataFrame Z) (arr : ndarray) :
  _random_data lib s nconfigs spc d names rs = Ok (F, L, G) →
  cs_sample_values lib (config_space s) rs nconfigs = Ok arr →
  length (cells arr) = nconfigs →
  "epoch" ∉ cs_hyperparameter_names lib (config_space s) →
  columns F
  = (LStr <$> cs_hyperparameter_names lib (config_space s)) ++ [LStr "epoch"]
  ∧ ∀ i, i < nconfigs * spc →
      ∃ r, cells arr !! (i / spc) = Some r ∧
           rows F !! i = Some (r ++ [CInt (Z.of_nat (1 + i mod spc))]) ∧
           rows G !! i = Some [Z.of_nat (1 + i / spc)].
Proof.
  intros (arr' & Harr & _ & -> & _ & -> & ->)%random_data_inv Hs Hn Hepoch.
  assert (arr' = arr) as -> by congruence.
  assert (LStr "epoch" ∉ LStr <$> cs_hyperparameter_names lib (config_space s))
    as Hnew.
  { intros (x & [= <-] & Hx)%list_elem_of_fmap. done. }
  assert (∀ i, i < nconfigs * spc → 0 < spc ∧ i / spc < nconfigs) as Hdiv.
  { intros i Hi. assert (0 < spc) by (destruct spc; lia). split; [done|].
    apply Nat.Div0.div_lt_upper_bound. lia. }
  split.
  - unfold set_column, positions. by rewrite positions_from_absent.
  - intros i Hi. destruct (Hdiv i Hi) as [Hspc Hq].
    destruct (lookup_lt_is_Some_2 (cells arr) (i / spc)) as [r Hr]; [lia|].
    exists r. split; [done|]. split.
    + destruct (set_column_new
                  (mkDataFrame
                     (LStr <$> cs_hyperparameter_names lib (config_space s))
                     (np_repeat (cells arr) spc))
                  (LStr "epoch")
                  (CInt <$> np_tile (np_arange_from_1 spc) nconfigs) i r Hnew)
        as [_ ->].
      * simpl. rewrite lookup_np_repeat by lia. done.
      * rewrite list_lookup_fmap, lookup_np_tile
          by (rewrite length_np_arange_from_1; lia).
        rewrite length_np_arange_from_1, lookup_np_arange_from_1; [done|].
        by apply Nat.mod_upper_bound, Nat.neq_0_lt_0.
    + simpl. rewrite list_lookup_fmap, lookup_np_repeat
        by (rewrite length_np_arange_from_1; lia).
      by rewrite lookup_np_arange_from_1.
Qed.

Lemma random_data_rows_witness :
  ∃ F L G,
    _random_data RefMore.lib Ref.fresh 3 2 2 None None = Ok (F, L, G) ∧
    columns F = [LStr "Optimizer"; LStr "LearningRate"; LStr "epoch"] ∧
    ∃ r, rows F !! 3 = Some (r ++ [CInt 2]) ∧ rows G !! 3 = Some [2%Z].
Proof.
  eexists _, _, _. split; [reflexivity|].
  destruct (random_data_rows RefMore.lib Ref.fresh 3 2 2 None None _ _ _
              (mkArray 2 (replicate 3 [CStr "SGD"; CFloat 0.5]))
              eq_refl eq_refl eq_refl)
    as [Hc Hrows].
  - change ("epoch" ∉ ["Optimizer"; "LearningRate"]).
    apply not_elem_of_cons. split; [discriminate|].
    apply not_elem_of_cons. split; [discriminate|]. apply not_elem_of_nil.
  - split; [exact Hc|].
    destruct (Hrows 3 ltac:(lia)) as (r & _ & HF & HG).
    exists r. split; [exact HF | exact HG].
Defined.

(** X15. [_random_data] raises [ValueError] when the number of label names
    given differs from [nlabel_dims], or when the configuration space names
    a different number of hyperparameters than a sampled configuration has
    values; an error of the sampling itself is passed on. *)
Theorem random_data_errors
    {ConfigSpace Model} (lib : ConfigSpaceLib ConfigSpace)
    (s : XGBSurrogate ConfigSpace Model) (nconfigs spc d : nat)
    (names : option (list label)) (rs : RandomState) :
  (∀ e, cs_sample_values lib (config_space s) rs nconfigs = Raise e →
        _random_data lib s nconfigs spc d names rs = Raise e)
  ∧ (∀ arr, cs_sample_values lib (config_space s) rs nconfigs = Ok arr →
       length (cs_hyperparameter_names lib (config_space s)) ≠ width arr
       ∨ (∃ l, names = Some l ∧ length l ≠ d) →
       _random_data lib s nconfigs spc d names rs
       = Raise (ValueError "Shape of passed values")).
Proof.
  split.
  - intros e He. unfold _random_data. by rewrite He.
  - intros arr Harr Hbad. unfold _random_data. rewrite Harr.
    cbn [mbind result_bind pd_DataFrame width cells].
    destruct (decide (length (LStr <$> _) = width arr)) as [HF|HF];
      cbn [mbind result_bind].
    + rewrite length_fmap in HF.
      destruct Hbad as [?|(l & -> & Hl)]; [done|].
      destruct (decide (length _ = width _)) as [HL|]; [|done].
      simpl in HL. done.
    + done.
Qed.

Lemma random_data_errors_witness :
  _random_data RefMore.lib Ref.fresh 3 2 2 (Some [LStr "valid-acc"]) None
  = Raise (ValueError "Shape of passed values").
Proof.
  apply (proj2 (random_data_errors RefMore.lib Ref.fresh 3 2 2
                  (Some [LStr "valid-acc"]) None)
           (mkArray 2 (replicate 3 [CStr "SGD"; CFloat 0.5]))).
  - reflexivity.
  - right. exists [LStr "valid-acc"]. split; [reflexivity | discriminate].
Defined.

(** * [predict] and the order of the input columns *)

Section ReindexFacts.

Implicit Types (cs hs fh : list label) (h : label) (ps qs : list nat).

Lemma positions_from_present i h cs :
  h ∈ cs → positions_from i h cs ≠ [].
Proof.
  revert i. induction cs as [|c cs IH]; intros i Hh; simpl.
  - by apply not_elem_of_nil in Hh.
  - destruct (decide (c = h)); [done|].
    apply elem_of_cons in Hh as [->|Hh]; [done | by apply IH].
Qed.

(** Labels that are all columns can be selected. *)
Lemma loc_positions_present cs hs :
  (∀ h, h ∈ hs → h ∈ cs) → ∃ ps, loc_positions cs hs = Ok ps.
Proof.
  induction hs as [|h hs IH]; intros Hin; simpl; [by eexists|].
  destruct IH as [rest ->]; [intros h' ?; apply Hin; by right|].
  unfold positions.
  pose proof (positions_from_present 0 h cs (Hin h ltac:(by left))) as Hne.
  destruct (positions_from 0 h cs); [done|]. simpl. by eexists.
Qed.

Lemma mapM_Forall2_ext {A B C} (f : A → option C) (g : B → option C) l k :
  Forall2 (λ x y, f x = g y) l k → mapM f l = mapM g k.
Proof.
  induction 1 as [|x y l k Hxy _ IH]; csimpl; [done|].
  rewrite Hxy. destruct (g y) as [c|]; [|done].
  change (mapM f l ≫= (λ k0, mret (c :: k0))
          = mapM g k ≫= (λ k0, mret (c :: k0))).
  by rewrite IH.
Qed.

(** Selecting columns from a selection is selecting them from the table. *)
Lemma loc_cols_loc_cols {A} (X X1 : DataFrame A) hs fh :
  NoDup (columns X) → NoDup hs → (∀ h, h ∈ fh → h ∈ hs) →
  loc_cols X hs = Ok X1 →
  loc_cols X1 fh = loc_cols X fh.
Proof.
  intros Hnd Hndh Hsub HX1.
  pose proof (loc_cols_columns X X1 hs Hnd HX1) as Hcols.
  revert HX1. unfold loc_cols at 1.
  destruct (loc_positions (columns X) hs) as [ps|] eqn:Eps; simpl; [|done].
  destruct (mapM (take_positions ps) (rows X)) as [rs1|] eqn:Ers; simpl;
    [|done].
  intros [= <-]. simpl in Hcols.
  pose proof (loc_positions_Forall2 _ _ _ Hnd Eps) as Hps.
  destruct (loc_positions_present hs fh Hsub) as [qs Eqs].
  pose proof (loc_positions_Forall2 _ _ _ Hndh Eqs) as Hqs.
  destruct (loc_positions_present (columns X) fh) as [pf Epf].
  { intros h Hh. apply Hsub in Hh.
    apply list_elem_of_lookup_1 in Hh as [q Hq].
    destruct (Forall2_lookup_l _ _ _ _ _ Hps Hq) as (p & _ & Hp).
    by eapply list_elem_of_lookup_2. }
  pose proof (loc_positions_Forall2 _ _ _ Hnd Epf) as Hpf.
  assert (Forall2 (λ q p, ps !! q = Some p) qs pf) as Hqp.
  { clear -Hps Hqs Hpf Hnd. revert pf Hpf.
    induction Hqs as [|h q fh qs Hq _ IH]; intros pf Hpf.
    - inversion Hpf. constructor.
    - inversion Hpf as [|? p ? pf' Hp Hpf']; subst. constructor; [|by apply IH].
      destruct (Forall2_lookup_l _ _ _ _ _ Hps Hq) as (p' & Hp' & Hc).
      rewrite Hp'. f_equal. by eapply NoDup_lookup. }
  unfold loc_cols. rewrite Hcols. simpl. rewrite Eqs, Epf. simpl.
  assert (mapM (take_positions qs) rs1 = mapM (take_positions pf) (rows X))
    as ->.
  { apply mapM_Some in Ers. symmetry. apply mapM_Forall2_ext.
    eapply Forall2_impl; [exact Ers|]. intros r r1 Hr. simpl in Hr.
    unfold take_positions in *. apply mapM_Some in Hr.
    symmetry. apply mapM_Forall2_ext.
    eapply Forall2_impl; [exact Hqp|]. intros q p Hq. simpl in Hq.
    destruct (Forall2_lookup_l _ _ _ _ _ Hr Hq) as (x & -> & Hx). done. }
  destruct (mapM (take_positions pf) (rows X)); simpl; [|done].
  by rewrite (loc_positions_labels hs fh qs Hndh Eqs),
    (loc_positions_labels (columns X) fh pf Hnd Epf).
Qed.

End ReindexFacts.

(** X16. [predict] looks at the input's columns by label only: on an
    instance whose feature order is set, a table with unique column labels
    and the same table with its columns reordered, or stripped of columns
    that are not stored ones, give the same outcome. *)
Theorem predict_ignores_column_order
    {ConfigSpace Model} (sk : SkLearn ConfigSpace Model)
    (s : XGBSurrogate ConfigSpace Model) (fh hs : list label)
    (X X1 : DataFrame cell) :
  feature_headers s = Some fh →
  NoDup (columns X) → NoDup hs → (∀ h, h ∈ fh → h ∈ hs) →
  loc_cols X hs = Ok X1 →
  predict_of sk s X1 = predict_of sk s X.
Proof.
  intros Hfh Hnd Hndh Hsub HX1. unfold predict_of. rewrite Hfh. simpl.
  by rewrite (loc_cols_loc_cols X X1 hs fh).
Qed.

Lemma predict_ignores_column_order_witness :
  predict_of Ref.sklearn Ref.fitted
    (mkDataFrame [LStr "epoch"; LStr "Optimizer"]
       [[CInt 1; CStr "SGD"]; [CInt 2; CStr "SGD"];
        [CInt 1; CStr "Adam"]; [CInt 2; CStr "Adam"]])
  = predict_of Ref.sklearn Ref.fitted Ref.X4.
Proof.
  apply (predict_ignores_column_order Ref.sklearn Ref.fitted
           [LStr "Optimizer"; LStr "epoch"] [LStr "epoch"; LStr "Optimizer"]
           Ref.X4).
  - reflexivity.
  - apply NoDup_cons. split; [|apply NoDup_singleton].
    apply not_elem_of_cons. split; [discriminate | apply not_elem_of_nil].
  - apply NoDup_cons. split; [|apply NoDup_singleton].
    apply not_elem_of_cons. split; [discriminate | apply not_elem_of_nil].
  - intros h Hh. apply elem_of_cons in Hh as [->|Hh];
      [|apply elem_of_cons in Hh as [->|Hh]].
    + right. left.
    + left.
    + by apply not_elem_of_nil in Hh.
  - reflexivity.
Defined.


